(** * Prior bounds of the pyloric network simulator

    A shallow embedding of [pyloric/prior.py]: the bound calculator
    ([_get_min_max_membrane_gbar], [_get_min_max_synapse_gbar], [_select]),
    the bound assembler ([prior_bounds]) and the factory ([create_prior]).

    Numbers are IEEE 754 binary64 values, the element type of the NumPy
    arrays of the source, computed with the kernel's primitive floats: [*],
    [+], [-] and [<] below round exactly as NumPy does.  NumPy's [log] (and
    the exponential it is compared with) and the uniform sampler of [sbi]
    are not part of the repository; the development is parametrised over
    them. *)

From Stdlib Require Import Floats.PrimFloat.
From Stdlib Require Import List Bool Arith Lia.
From stdpp Require Import gmap strings.
Import ListNotations.

Set Warnings "-inexact-float".

#[local] Open Scope float_scope.
#[local] Open Scope list_scope.

(** ** Exceptions *)

(** The Python exceptions the modelled code can raise. *)
Inductive exn : Type :=
| IndexError   (* a boolean index whose shape does not fit the indexed array *)
| KeyError     (* a dictionary read at a key it does not hold *)
| ValueError.  (* raised by the sampler on vectors it refuses *)

Inductive result (A : Type) : Type :=
| Ok (a : A)
| Raise (e : exn).

Arguments Ok {A} a.
Arguments Raise {A} e.

Definition bind {A B : Type} (r : result A) (k : A -> result B) : result B :=
  match r with
  | Ok a => k a
  | Raise e => Raise e
  end.

Notation "'let!' p := r 'in' k" := (bind r (fun p => k))
  (at level 10, p pattern, r at level 100, k at level 200,
   format "'[v' 'let!'  p  :=  r  'in' '/' k ']'").

Definition is_ok {A : Type} (r : result A) : bool :=
  match r with Ok _ => true | Raise _ => false end.

(** ** Arrays *)

(** A boolean NumPy array as the selection masks come: a flat sequence
    (shape [(n,)]) or a nested one (shape [(r, c)]).  The rows of an array
    have one length ([is_array] below); [np.asarray] refuses a nesting with
    rows of different lengths, so no array stands behind such an [Arr2],
    and what indexing does with it here (it raises [IndexError]) belongs to
    no run of the program.  A nested array without rows is given the shape
    [(0, 0)]. *)
Inductive ndarray : Type :=
| Arr1 (cells : list bool)
| Arr2 (rows : list (list bool)).

Definition is_array (a : ndarray) : bool :=
  match a with
  | Arr1 _ => true
  | Arr2 rows => forallb (fun m => (length m =? length (hd [] rows))%nat) rows
  end.

(** [a.shape]. *)
Definition shape (a : ndarray) : list nat :=
  match a with
  | Arr1 cells => [length cells]
  | Arr2 rows => [length rows; length (hd [] rows)]
  end.

(** [np.prod]. *)
Definition prod (dims : list nat) : nat := fold_right Nat.mul 1%nat dims.

(** The number of [True] entries of a mask. *)
Definition count_true (a : ndarray) : nat :=
  match a with
  | Arr1 cells => length (List.filter id cells)
  | Arr2 rows => length (List.filter id (concat rows))
  end.

(** The entries of [v] at the positions where [m] holds [True], in order. *)
Fixpoint mask_select {A : Type} (v : list A) (m : list bool) : list A :=
  match v, m with
  | x :: v', b :: m' => if b then x :: mask_select v' m' else mask_select v' m'
  | _, _ => []
  end.

Fixpoint zip_rows {A B C : Type} (f : A -> B -> C) (l : list A) (k : list B) : list C :=
  match l, k with
  | x :: l', y :: k' => f x y :: zip_rows f l' k'
  | _, _ => []
  end.

(** NumPy checks an axis of a boolean index against the axis it indexes
    only when the axis of the index is not empty. *)
Definition axis_fits (index_dim array_dim : nat) : bool :=
  (index_dim =? 0)%nat || (index_dim =? array_dim)%nat.

(** [v[selector]] for a one-dimensional [v]: the boolean index must have
    the one dimension of [v] and, unless it is empty, its length. *)
Definition bool_index1 {A : Type} (v : list A) (selector : ndarray) : result (list A) :=
  match selector with
  | Arr1 m => if axis_fits (length m) (length v) then Ok (mask_select v m) else Raise IndexError
  | Arr2 _ => Raise IndexError
  end.

(** The mask has the rows of the table, each of the length of its row. *)
Definition same_row_lengths {A : Type} (t : list (list A)) (rows : list (list bool)) : bool :=
  (length rows =? length t)%nat
  && forallb id (zip_rows (fun r m => (length m =? length r)%nat) t rows).

(** [t[selector].flatten()] for a two-dimensional [t]: a mask of the shape
    of [t] keeps single cells, row after row; a flat mask as long as [t]
    has rows keeps whole rows; a mask with an empty axis keeps nothing, and
    only its other axis is checked; any other shape is an [IndexError]. *)
Definition bool_index2 {A : Type} (t : list (list A)) (selector : ndarray) : result (list A) :=
  match selector with
  | Arr2 rows =>
      if is_array selector
         && axis_fits (length rows) (length t)
         && forallb (fun r => axis_fits (length (hd [] rows)) (length r)) t
      then Ok (concat (zip_rows mask_select t rows))
      else Raise IndexError
  | Arr1 m =>
      if axis_fits (length m) (length t)
      then Ok (concat (mask_select t m))
      else Raise IndexError
  end.

(** ** Membrane conductances *)

Definition unit_scale : float := 0.628e-3.

(** Contains the minimal values that were used by Prinz et al. *)
Definition membrane_cond_mins_table : list (list float) :=
  [ [100; 2.5; 2; 10; 5; 50; 0.01; 0.0];    (* PM *)
    [100; 0.0; 4; 20; 0; 25; 0.0; 0.02];    (* LP *)
    [100; 2.5; 0; 40; 0; 75; 0.0; 0.0] ].   (* PY *)

(** Contains the maximal values that were used by Prinz et al. *)
Definition membrane_cond_maxs_table : list (list float) :=
  [ [400; 5; 6; 50; 10; 125; 0.01; 0.0];    (* PM *)
    [100; 0; 10; 50; 5; 100; 0.05; 0.03];   (* LP *)
    [500; 10; 2; 50; 0; 125; 0.05; 0.03] ]. (* PY *)

Definition padding_table : list float := [100; 2.5; 2; 10; 5; 25; 0.01; 0.01].

(** [table * c]. *)
Definition scale2 (c : float) (t : list (list float)) : list (list float) :=
  map (map (fun x => x * c)) t.

(** [t - p] and [t + p] with the row [p] broadcast over the rows of [t]. *)
Definition sub_rows (t : list (list float)) (p : list float) : list (list float) :=
  map (fun row => zip_rows PrimFloat.sub row p) t.

Definition add_rows (t : list (list float)) (p : list float) : list (list float) :=
  map (fun row => zip_rows PrimFloat.add row p) t.

(** [t[t < 0.0] = 0.0]. *)
Definition clip_below_zero (t : list (list float)) : list (list float) :=
  map (map (fun x => if x <? 0.0 then 0.0 else x)) t.

Definition membrane_cond_mins : list (list float) :=
  let membrane_cond_mins := scale2 unit_scale membrane_cond_mins_table in
  let padding := map (fun x => x * unit_scale) padding_table in
  let membrane_cond_mins := sub_rows membrane_cond_mins padding in
  clip_below_zero membrane_cond_mins.

Definition membrane_cond_maxs : list (list float) :=
  let membrane_cond_maxs := scale2 unit_scale membrane_cond_maxs_table in
  let padding := map (fun x => x * unit_scale) padding_table in
  add_rows membrane_cond_maxs padding.

Definition _get_min_max_membrane_gbar (selector : ndarray)
  : result (list float * list float) :=
  let use_membrane := selector in
  let! membrane_used_mins := bool_index2 membrane_cond_mins use_membrane in
  let! membrane_used_maxs := bool_index2 membrane_cond_maxs use_membrane in
  Ok (membrane_used_mins, membrane_used_maxs).

Section Collaborators.

(** [np.log], and the sampler of [sbi] with its constructor. *)
Variable log : float -> float.
Variable sampler : Type.
Variable BoxUniform : list float -> list float -> result sampler.

(** ** Synaptic conductances *)

(** Return minimum and maximum of the synaptic conductances as used in
    Goncalves et al. *)
Definition _get_min_max_synapse_gbar (min_val max_val : float) (log_space : bool)
  : list float * list float :=
  let syn_dim_mins := map (fun one => one * min_val) (repeat 1 7) in
  let syn_dim_maxs := map (fun one => one * max_val) (repeat 1 7) in
  let syn_dim_maxs := alter (fun x => x * 10.0) 0%nat syn_dim_maxs in
  if log_space
  then (map log syn_dim_mins, map log syn_dim_maxs)
  else (syn_dim_mins, syn_dim_maxs).

(** ** Q10 groups *)

Definition _select (minimum_val maximum_val : float) (selector : ndarray)
  : result (list float * list float) :=
  let ndims := prod (shape selector) in
  let min_vals := map (fun one => minimum_val * one) (repeat 1 ndims) in
  let max_vals := map (fun one => maximum_val * one) (repeat 1 ndims) in
  let! selected_min_vals := bool_index1 min_vals selector in
  let! selected_max_vals := bool_index1 max_vals selector in
  Ok (selected_min_vals, selected_max_vals).

(** ** Assembly *)

(** [setups[key]]. *)
Definition getitem (setups : gmap string ndarray) (key : string) : result ndarray :=
  match setups !! key with
  | Some a => Ok a
  | None => Raise KeyError
  end.

(** Returns the lower and upper bound for the prior as used in Goncalves
    et al. 2020. *)
Definition prior_bounds (setups : gmap string ndarray) (synapses_log_space : bool)
  : result (list float * list float) :=
  let! membrane_gbar := getitem setups "membrane_gbar" in
  let! (gbar_l, gbar_u) := _get_min_max_membrane_gbar membrane_gbar in
  let '(syn_l, syn_u) := _get_min_max_synapse_gbar 1e-08 0.001 synapses_log_space in
  (* Prior bounds for Q10 values. *)
  let g_min := 1.0 in
  let g_max := 2.0 in
  let tau_min := 1.0 in
  let tau_max := 4.0 in
  let! Q10_gbar_mem := getitem setups "Q10_gbar_mem" in
  let! (q10_mem_gbar_l, q10_mem_gbar_u) := _select g_min g_max Q10_gbar_mem in
  let! Q10_gbar_syn := getitem setups "Q10_gbar_syn" in
  let! (q10_syn_gbar_l, q10_syn_gbar_u) := _select g_min g_max Q10_gbar_syn in
  let! Q10_tau_m := getitem setups "Q10_tau_m" in
  let! (q10_tau_m_l, q10_tau_m_u) := _select tau_min tau_max Q10_tau_m in
  let! Q10_tau_h := getitem setups "Q10_tau_h" in
  let! (q10_tau_h_l, q10_tau_h_u) := _select tau_min tau_max Q10_tau_h in
  let! Q10_tau_CaBuff := getitem setups "Q10_tau_CaBuff" in
  let! (q10_tau_ca_l, q10_tau_ca_u) := _select tau_min tau_max Q10_tau_CaBuff in
  let! Q10_tau_syn := getitem setups "Q10_tau_syn" in
  let! (q10_syn_tau_l, q10_syn_tau_u) := _select tau_min tau_max Q10_tau_syn in
  let l_bound :=
    gbar_l ++ syn_l ++ q10_mem_gbar_l ++ q10_syn_gbar_l
    ++ q10_tau_m_l ++ q10_tau_h_l ++ q10_tau_ca_l ++ q10_syn_tau_l in
  let u_bound :=
    gbar_u ++ syn_u ++ q10_mem_gbar_u ++ q10_syn_gbar_u
    ++ q10_tau_m_u ++ q10_tau_h_u ++ q10_tau_ca_u ++ q10_syn_tau_u in
  Ok (l_bound, u_bound).

(** ** The factory *)

Definition default_setups : gmap string ndarray :=
  list_to_map
    [ ("membrane_gbar"%string,
        Arr2 [ [true; true; true; true; true; true; true; true];
               [true; true; true; true; true; true; true; true];
               [true; true; true; true; true; true; true; true] ]);
      ("Q10_gbar_mem"%string,
        Arr1 [false; false; false; false; false; false; false; false]);
      ("Q10_gbar_syn"%string, Arr1 [false; false]);  (* first for glutamate, second for choline *)
      ("Q10_tau_m"%string, Arr1 [false]);
      ("Q10_tau_h"%string, Arr1 [false]);
      ("Q10_tau_CaBuff"%string, Arr1 [false]);
      ("Q10_tau_syn"%string, Arr1 [false; false]) ]. (* first for glutamate, second for choline *)

(** Modelled from the spec: [pyloric.utils.ensure_array_not_scalar] is
    not among the sources.  The entries of a customization are arrays here
    (type [ndarray]); the normaliser turns a lone boolean into an array and
    leaves an entry that is an array as it is. *)
Definition ensure_array_not_scalar (entry : ndarray) : ndarray := entry.

(** The labels of the name resolver: a type name and the index of the
    channel in its group. *)
Definition names : Type := list string * list nat.

Definition row_labels : list (list string) :=
  map (fun neuron : string => repeat neuron 8) ["PM"%string; "LP"%string; "PY"%string].

Definition column_indices : list (list nat) := repeat (seq 0 8) 3.

Definition q10_names (setups : gmap string ndarray) (key : string) : result names :=
  let! selector := getitem setups key in
  let! channels := bool_index1 (seq 0 (prod (shape selector))) selector in
  Ok (map (fun _ => key) channels, channels).

(** Modelled from the spec: [pyloric.utils.select_names] is not among the
    sources.  The name resolver yields a type name and a channel name for
    every active entry, in the canonical order of the groups and by the
    selection the bound calculator makes; the channel vocabulary is not
    given, a channel is named by its index. *)
Definition select_names (setups : gmap string ndarray) : result names :=
  let! membrane_gbar := getitem setups "membrane_gbar" in
  let! gbar_types := bool_index2 row_labels membrane_gbar in
  let! gbar_channels := bool_index2 column_indices membrane_gbar in
  let syn : names := (repeat "Synapses"%string 7, seq 0 7) in
  let! q10_mem_gbar := q10_names setups "Q10_gbar_mem" in
  let! q10_syn_gbar := q10_names setups "Q10_gbar_syn" in
  let! q10_tau_m := q10_names setups "Q10_tau_m" in
  let! q10_tau_h := q10_names setups "Q10_tau_h" in
  let! q10_tau_ca := q10_names setups "Q10_tau_CaBuff" in
  let! q10_syn_tau := q10_names setups "Q10_tau_syn" in
  let groups :=
    [ (gbar_types, gbar_channels); syn; q10_mem_gbar; q10_syn_gbar;
      q10_tau_m; q10_tau_h; q10_tau_ca; q10_syn_tau ] in
  Ok (concat (map fst groups), concat (map snd groups)).

(** Wrapper for the pytorch prior such that it returns pandas samples. *)
Record pd_prior : Type := {
  lower : list float;
  upper : list float;
  parameter_names : names;
  numerical_prior : sampler
}.

(** [pd_prior.__init__]; [torch.tensor] keeps the binary64 values. *)
Definition pd_prior_init (lower upper : list float) (parameter_names : names)
  : result pd_prior :=
  let! numerical_prior := BoxUniform lower upper in
  Ok {| lower := lower; upper := upper;
        parameter_names := parameter_names;
        numerical_prior := numerical_prior |}.

(** Lines 38 to 53: the defaults, updated with the customization and
    normalised. *)
Definition resolve_setups (customization : gmap string ndarray) : gmap string ndarray :=
  let setups := default_setups in
  let setups := customization ∪ setups in
  ensure_array_not_scalar <$> setups.

(** Return prior over circuit parameters of the pyloric network. *)
Definition create_prior (lower_bound upper_bound : option (list float))
    (customization : gmap string ndarray) (synapses_log_space : bool)
  : result pd_prior :=
  let setups := resolve_setups customization in
  let! (l_bound, u_bound) := prior_bounds setups synapses_log_space in
  let lower_bound := match lower_bound with None => l_bound | Some given => given end in
  let upper_bound := match upper_bound with None => u_bound | Some given => given end in
  let! (type_names, channel_names) := select_names setups in
  pd_prior_init lower_bound upper_bound (type_names, channel_names).

End Collaborators.

Arguments lower {sampler} _.
Arguments upper {sampler} _.
Arguments parameter_names {sampler} _.
Arguments numerical_prior {sampler} _.

(** ** Instances of the collaborators *)

(** The natural logarithm at the three arguments the program takes it
    at, rounded to binary64. *)
Definition log_table (x : float) : float :=
  if x =? 1e-08 then -18.420680743952367
  else if x =? 0.001 then -6.907755278982137
  else if x =? 0.01 then -4.605170185988091
  else nan.

(** The exponential at these three logarithms as the C library computes
    it in binary64: none gives back the argument of the logarithm. *)
Definition exp_rounded (y : float) : float :=
  if y =? -18.420680743952367 then 9.999999999999982e-09
  else if y =? -6.907755278982137 then 0.0010000000000000002
  else if y =? -4.605170185988091 then 0.010000000000000004
  else nan.

Record box : Type := { low : list float; high : list float }.

(** Modelled from the spec: the box-uniform sampler is an external
    collaborator; its construction takes a lower and an upper vector that
    must have identical length and fails otherwise. *)
Definition box_uniform (lower upper : list float) : result box :=
  if (length lower =? length upper)%nat
  then Ok {| low := lower; high := upper |}
  else Raise ValueError.

(** ** What the spec says of the membrane group *)

Module MembraneSpec.

(** The cell of row [i] and column [j] of a reference table. *)
Definition cell (t : list (list float)) (i j : nat) : float :=
  nth j (nth i t []) 0.

(** Scaled minimum less the scaled padding of the column, clipped at zero. *)
Definition lower_cell (i j : nat) : float :=
  let padded :=
    cell membrane_cond_mins_table i j * 0.628e-3 - nth j padding_table 0 * 0.628e-3 in
  if padded <? 0 then 0 else padded.

(** Scaled maximum plus the scaled padding of the column. *)
Definition upper_cell (i j : nat) : float :=
  cell membrane_cond_maxs_table i j * 0.628e-3 + nth j padding_table 0 * 0.628e-3.

(** The cells a 3×8 mask keeps, in row-major order. *)
Definition kept_cells (mask : list (list bool)) : list (nat * nat) :=
  flat_map
    (fun i => map (pair i) (List.filter (fun j => nth j (nth i mask []) false) (seq 0 8)))
    (seq 0 3).

Definition bounds (mask : list (list bool)) : list float * list float :=
  (map (fun c => lower_cell (fst c) (snd c)) (kept_cells mask),
   map (fun c => upper_cell (fst c) (snd c)) (kept_cells mask)).

End MembraneSpec.

(** ** Configurations *)

(** The keys of the selection masks, in the canonical order of the groups. *)
Definition q10_keys : list string :=
  [ "Q10_gbar_mem"; "Q10_gbar_syn"; "Q10_tau_m"; "Q10_tau_h";
    "Q10_tau_CaBuff"; "Q10_tau_syn" ]%string.

Definition mask_keys : list string := "membrane_gbar"%string :: q10_keys.

Definition is_3x8 (a : ndarray) : bool :=
  match a with
  | Arr2 rows => (length rows =? 3)%nat && forallb (fun r => (length r =? 8)%nat) rows
  | Arr1 _ => false
  end.

Definition is_flat (a : ndarray) : bool :=
  match a with
  | Arr1 _ => true
  | Arr2 _ => false
  end.

(** The masks a configuration must hold: the membrane mask with the shape
    (3, 8) of the tables, every Q10 mask one-dimensional.  The lengths the
    catalog declares for the Q10 masks (8, 2, 1, 1, 1, 2) are a special
    case. *)
Definition well_shaped (setups : gmap string ndarray) : bool :=
  from_option is_3x8 false (setups !! "membrane_gbar"%string)
  && forallb (fun key => from_option is_flat false (setups !! key)) q10_keys.

(** The [True] entries of all the selection masks. *)
Definition active_mask_count (setups : gmap string ndarray) : nat :=
  list_sum (map (fun key => from_option count_true 0%nat (setups !! key)) mask_keys).

(** [lower[i] <= upper[i]] at every index. *)
Definition ordered (lower upper : list float) : Prop :=
  Forall2 (fun l u => (l <=? u) = true) lower upper.

(** ** The groups in canonical order *)

(** The seven masks [prior_bounds] reads. *)
Record masks : Type := {
  membrane_gbar : ndarray;
  Q10_gbar_mem : ndarray;
  Q10_gbar_syn : ndarray;
  Q10_tau_m : ndarray;
  Q10_tau_h : ndarray;
  Q10_tau_CaBuff : ndarray;
  Q10_tau_syn : ndarray
}.

Definition read_masks (setups : gmap string ndarray) : option masks :=
  match setups !! "membrane_gbar"%string, setups !! "Q10_gbar_mem"%string,
        setups !! "Q10_gbar_syn"%string, setups !! "Q10_tau_m"%string,
        setups !! "Q10_tau_h"%string, setups !! "Q10_tau_CaBuff"%string,
        setups !! "Q10_tau_syn"%string with
  | Some a0, Some a1, Some a2, Some a3, Some a4, Some a5, Some a6 =>
      Some {| membrane_gbar := a0; Q10_gbar_mem := a1; Q10_gbar_syn := a2;
              Q10_tau_m := a3; Q10_tau_h := a4; Q10_tau_CaBuff := a5;
              Q10_tau_syn := a6 |}
  | _, _, _, _, _, _, _ => None
  end.

(** The bound calculator on each group, in the canonical order: membrane
    conductances, synaptic conductances, Q10 of the membrane conductances,
    Q10 of the synaptic conductances, Q10 of the membrane, inactivation,
    calcium-buffer and synapse time constants. *)
Definition group_bounds (log : float -> float) (synapses_log_space : bool) (m : masks)
  : list (result (list float * list float)) :=
  [ _get_min_max_membrane_gbar (membrane_gbar m);
    Ok (_get_min_max_synapse_gbar log 1e-08 0.001 synapses_log_space);
    _select 1.0 2.0 (Q10_gbar_mem m);
    _select 1.0 2.0 (Q10_gbar_syn m);
    _select 1.0 4.0 (Q10_tau_m m);
    _select 1.0 4.0 (Q10_tau_h m);
    _select 1.0 4.0 (Q10_tau_CaBuff m);
    _select 1.0 4.0 (Q10_tau_syn m) ].

(** The groups of a well-shaped configuration. *)
Definition well_shaped_groups (log : float -> float) (b : bool)
    (rows : list (list bool)) (q10 : list (float * float * list bool))
  : list (list float * list float) :=
  (concat (zip_rows mask_select membrane_cond_mins rows),
   concat (zip_rows mask_select membrane_cond_maxs rows))
  :: _get_min_max_synapse_gbar log 1e-08 0.001 b
  :: map (fun '(lo, hi, cells) =>
            (repeat (lo * 1) (count_true (Arr1 cells)),
             repeat (hi * 1) (count_true (Arr1 cells)))) q10.

(** The shapes of mask the 3×8 tables accept as a boolean index. *)
Definition fits_membrane (selector : ndarray) : bool :=
  match selector with
  | Arr2 rows => is_3x8 (Arr2 rows)
  | Arr1 m => (length m =? 3)%nat
  end.

(** The masks the 3×8 tables take as a boolean index: every axis of the
    mask that is not empty is as long as the axis it indexes. *)
Definition index_fits_membrane (selector : ndarray) : bool :=
  match selector with
  | Arr2 rows =>
      is_array selector
      && axis_fits (length rows) 3
      && axis_fits (length (hd [] rows)) 8
  | Arr1 m => axis_fits (length m) 3
  end.

(** The seven keys are there, the tables take the membrane mask as an
    index, every Q10 mask is one-dimensional. *)
Definition index_accepted (setups : gmap string ndarray) : bool :=
  from_option index_fits_membrane false (setups !! "membrane_gbar"%string)
  && forallb (fun key => from_option is_flat false (setups !! key)) q10_keys.

(** Every mask the configuration holds is an array. *)
Definition holds_arrays (setups : gmap string ndarray) : bool :=
  forallb (fun key => from_option is_array true (setups !! key)) mask_keys.

(** [x] is [y] up to a relative error of 1e-14. *)
Definition within_tolerance (x y : float) : Prop :=
  (abs (x - y) <=? 1e-14 * abs y) = true.

(** The configurations with a membrane mask of full shape: the seven keys
    are there, the membrane mask fits the tables, every Q10 mask is
    one-dimensional. *)
Definition accepted (setups : gmap string ndarray) : bool :=
  from_option fits_membrane false (setups !! "membrane_gbar"%string)
  && forallb (fun key => from_option is_flat false (setups !! key)) q10_keys.

(** [lower[i] < upper[i]] at every index. *)
Definition strictly_ordered (lower upper : list float) : Prop :=
  Forall2 (fun l u => (l <? u) = true) lower upper.

(** ** Example configurations *)

(** A customization whose membrane mask is an array without entries. *)
Definition empty_mask_customization : gmap string ndarray :=
  <[ "membrane_gbar"%string := Arr1 [] ]> ∅.

(** A customization whose membrane mask is a flat array of one entry. *)
Definition lone_true_customization : gmap string ndarray :=
  <[ "membrane_gbar"%string := Arr1 [true] ]> ∅.


(** A customization that switches off one neuron's membrane conductances
    and switches on three Q10 values. *)
Definition example_customization : gmap string ndarray :=
  list_to_map
    [ ("membrane_gbar"%string,
        Arr2 [ [true; true; true; true; true; true; true; true];
               [false; false; false; false; false; false; false; false];
               [true; false; true; false; true; false; true; false] ]);
      ("Q10_gbar_syn"%string, Arr1 [true; false]);
      ("Q10_tau_syn"%string, Arr1 [true; true]) ].

(** The customization that excludes all membrane conductances. *)
Definition no_membrane_customization : gmap string ndarray :=
  <[ "membrane_gbar"%string :=
       Arr2 [ [false; false; false; false; false; false; false; false];
              [false; false; false; false; false; false; false; false];
              [false; false; false; false; false; false; false; false] ] ]> ∅.

(** A customization with a misspelt key. *)
Definition misspelt_customization : gmap string ndarray :=
  <[ "membrane_gbarr"%string :=
       Arr2 [ [false; false; false; false; false; false; false; false];
              [false; false; false; false; false; false; false; false];
              [false; false; false; false; false; false; false; false] ] ]> ∅.

(** The bounds computed for the default configuration, synapses in log
    space. *)
Definition default_bounds : list float * list float :=
  match prior_bounds log_table (resolve_setups ∅) true with
  | Ok bounds => bounds
  | Raise _ => ([], [])
  end.

(** ** Selection by a mask *)

Section MaskSelect.

Context {A : Type}.

Lemma mask_select_length (v : list A) (m : list bool) :
  length v = length m -> length (mask_select v m) = length (List.filter id m).
Proof.
  revert m; induction v as [|x v IH]; intros [|b m] Hlen; simpl in *; try lia.
  destruct b; simpl; rewrite IH by lia; reflexivity.
Qed.

Lemma mask_select_In (v : list A) (m : list bool) (x : A) :
  In x (mask_select v m) -> In x v.
Proof.
  revert m; induction v as [|y v IH]; intros [|b m]; simpl; try tauto.
  destruct b; simpl; intros H; [destruct H as [H|H]|]; eauto.
Qed.

Lemma mask_select_Forall2 {B : Type} (R : A -> B -> Prop) (v : list A) (w : list B) :
  Forall2 R v w -> forall m, Forall2 R (mask_select v m) (mask_select w m).
Proof.
  induction 1 as [|x y v w Hxy _ IH]; intros [|b m]; simpl; try constructor.
  destruct b; [constructor|]; auto.
Qed.

(** Selecting from a table of values [g off, g (off+1), ...] is tabulating
    [g] over the indices the mask keeps. *)
Lemma mask_select_tabulate (g : nat -> A) (m : list bool) (off : nat) :
  mask_select (map g (seq off (length m))) m
  = map g (List.filter (fun j => nth (j - off) m false) (seq off (length m))).
Proof.
  revert off; induction m as [|b m IH]; intros off; [reflexivity|].
  cbn [length seq map mask_select List.filter].
  rewrite Nat.sub_diag. change (nth 0 (b :: m) false) with b.
  assert (Hext :
    List.filter (fun j => nth (j - off) (b :: m) false) (seq (S off) (length m))
    = List.filter (fun j => nth (j - S off) m false) (seq (S off) (length m))).
  { apply filter_ext_in. intros j Hj. apply in_seq in Hj.
    replace (j - off)%nat with (S (j - S off)) by lia. reflexivity. }
  rewrite Hext, IH. destruct b; reflexivity.
Qed.

End MaskSelect.

Lemma zip_select_In {A : Type} (t : list (list A)) (rows : list (list bool)) (x : A) :
  In x (concat (zip_rows mask_select t rows)) -> In x (concat t).
Proof.
  revert rows; induction t as [|r t IH]; intros [|m rows]; simpl; try tauto.
  rewrite !in_app_iff. intros [H|H]; [left; eapply mask_select_In|right]; eauto.
Qed.

Lemma zip_select_Forall2 {A B : Type} (R : A -> B -> Prop)
    (t : list (list A)) (t' : list (list B)) :
  Forall2 (Forall2 R) t t' ->
  forall rows, Forall2 R (concat (zip_rows mask_select t rows))
                         (concat (zip_rows mask_select t' rows)).
Proof.
  induction 1 as [|r r' t t' Hr _ IH]; intros [|m rows]; simpl; try constructor.
  apply Forall2_app; [apply mask_select_Forall2|]; auto.
Qed.

Lemma concat_Forall2 {A B : Type} (R : A -> B -> Prop)
    (t : list (list A)) (t' : list (list B)) :
  Forall2 (Forall2 R) t t' -> Forall2 R (concat t) (concat t').
Proof. induction 1; simpl; [constructor|apply Forall2_app; auto]. Qed.

Lemma same_row_lengths_spec {A : Type} (t : list (list A)) (rows : list (list bool)) :
  same_row_lengths t rows = true <-> Forall2 (fun r m => length m = length r) t rows.
Proof.
  unfold same_row_lengths. rewrite andb_true_iff, Nat.eqb_eq. split.
  - intros [Hlen Hall]. revert rows Hlen Hall.
    induction t as [|r t IH]; intros [|m rows] Hlen Hall; simpl in *;
      try discriminate; constructor.
    + apply andb_true_iff in Hall as [H _]. now apply Nat.eqb_eq in H.
    + apply andb_true_iff in Hall as [_ H]. apply IH; [lia|exact H].
  - induction 1 as [|r m t rows Hrm _ [IHlen IHall]]; simpl; [tauto|].
    split; [lia|]. apply andb_true_iff. split; [now apply Nat.eqb_eq|exact IHall].
Qed.

Lemma zip_select_length {A : Type} (t : list (list A)) (rows : list (list bool)) :
  Forall2 (fun r m => length m = length r) t rows ->
  length (concat (zip_rows mask_select t rows)) = length (List.filter id (concat rows)).
Proof.
  induction 1 as [|r m t rows Hrm _ IH]; simpl; [reflexivity|].
  rewrite List.filter_app, !length_app, IH, mask_select_length by lia. reflexivity.
Qed.

(** A table given cell by cell, indexed by a mask with rows of its width,
    yields the cells the mask keeps, row after row. *)
Lemma zip_select_tabulate {A : Type} (f : nat -> nat -> A) (n : nat)
    (rows : list (list bool)) (off : nat) :
  Forall (fun m => length m = n) rows ->
  concat (zip_rows mask_select
            (map (fun i => map (f i) (seq 0 n)) (seq off (length rows))) rows)
  = map (fun c => f (fst c) (snd c))
      (flat_map
         (fun i => map (pair i)
                     (List.filter (fun j => nth j (nth (i - off) rows []) false) (seq 0 n)))
         (seq off (length rows))).
Proof.
  intros Hrows. revert off.
  induction Hrows as [|m rows Hm _ IH]; intros off; [reflexivity|].
  cbn [length seq map zip_rows concat flat_map].
  rewrite Nat.sub_diag. change (nth 0 (m :: rows) []) with m.
  rewrite map_app, map_map. cbn [fst snd]. f_equal.
  - subst n. rewrite mask_select_tabulate. f_equal.
    apply filter_ext. intros j. now rewrite Nat.sub_0_r.
  - rewrite IH. f_equal. rewrite !flat_map_concat_map. f_equal.
    apply map_ext_in. intros i Hi. apply in_seq in Hi.
    replace (i - off)%nat with (S (i - S off)) by lia. reflexivity.
Qed.

Lemma is_3x8_rows (rows : list (list bool)) :
  is_3x8 (Arr2 rows) = true <-> length rows = 3%nat /\ Forall (fun m => length m = 8%nat) rows.
Proof.
  cbn [is_3x8]. rewrite andb_true_iff, Nat.eqb_eq, forallb_forall, List.Forall_forall.
  split; intros [H3 H8]; (split; [exact H3|]); intros m Hm; apply Nat.eqb_eq, H8, Hm.
Qed.

Lemma same_row_lengths_3x8 {A : Type} (t : list (list A)) (rows : list (list bool)) :
  map (@length A) t = [8; 8; 8]%nat -> same_row_lengths t rows = is_3x8 (Arr2 rows).
Proof.
  destruct t as [|r0 [|r1 [|r2 [|r3 t]]]]; try discriminate. intros [= H0 H1 H2].
  unfold same_row_lengths.
  destruct rows as [|m0 [|m1 [|m2 [|m3 rows]]]]; cbn; rewrite ?H0, ?H1, ?H2; reflexivity.
Qed.

Lemma axis_fits_refl (n : nat) : axis_fits n n = true.
Proof. unfold axis_fits. now rewrite Nat.eqb_refl, orb_true_r. Qed.

(** What [bool_index2] checks of a nested mask, on a table of three rows
    of eight. *)
Lemma index2_check_3x8 {A : Type} (t : list (list A)) (rows : list (list bool)) :
  map (@length A) t = [8; 8; 8]%nat ->
  is_array (Arr2 rows)
  && axis_fits (length rows) (length t)
  && forallb (fun r => axis_fits (length (hd [] rows)) (length r)) t
  = index_fits_membrane (Arr2 rows).
Proof.
  destruct t as [|r0 [|r1 [|r2 [|r3 t]]]]; try discriminate. intros [= H0 H1 H2].
  cbn [forallb length index_fits_membrane]. rewrite H0, H1, H2.
  destruct (is_array (Arr2 rows)), (axis_fits (length rows) 3),
    (axis_fits (length (hd [] rows)) 8); reflexivity.
Qed.

Lemma fits_membrane_index_fits (selector : ndarray) :
  fits_membrane selector = true -> index_fits_membrane selector = true.
Proof.
  destruct selector as [m|rows]; cbn [fits_membrane index_fits_membrane].
  - intros H. unfold axis_fits. now rewrite H, orb_true_r.
  - intros [H3 H8]%is_3x8_rows.
    destruct rows as [|m0 [|m1 [|m2 [|m3 rows]]]]; try discriminate H3.
    inversion H8 as [|? ? E0 H8']; subst. inversion H8' as [|? ? E1 H8'']; subst.
    inversion H8'' as [|? ? E2 _]; subst.
    cbn [is_array forallb hd length]. rewrite E0, E1, E2. reflexivity.
Qed.

Lemma bool_index2_is_ok_3x8 {A : Type} (t : list (list A)) (selector : ndarray) :
  map (@length A) t = [8; 8; 8]%nat ->
  is_ok (bool_index2 t selector) = index_fits_membrane selector.
Proof.
  intros Ht. unfold bool_index2. destruct selector as [m|rows].
  - replace (length t) with 3%nat by (now rewrite <- (length_map (@length A)), Ht).
    cbn [index_fits_membrane]. now destruct (axis_fits (length m) 3).
  - rewrite (index2_check_3x8 t rows Ht).
    now destruct (index_fits_membrane (Arr2 rows)).
Qed.

(** Two tables of one shape, indexed by one mask, yield related entries
    when their cells are related. *)
Lemma bool_index2_related {A B : Type} (R : A -> B -> Prop)
    (t : list (list A)) (t' : list (list B)) (selector : ndarray)
    (x : list A) (y : list B) :
  Forall2 (Forall2 R) t t' ->
  bool_index2 t selector = Ok x -> bool_index2 t' selector = Ok y -> Forall2 R x y.
Proof.
  intros Hrel. unfold bool_index2. destruct selector as [m|rows].
  - destruct (axis_fits (length m) (length t)); [|discriminate].
    destruct (axis_fits (length m) (length t')); [|discriminate].
    intros [= <-] [= <-]. now apply concat_Forall2, mask_select_Forall2.
  - destruct (is_array (Arr2 rows) && axis_fits (length rows) (length t)
              && forallb (fun r => axis_fits (length (hd [] rows)) (length r)) t);
      [|discriminate].
    destruct (is_array (Arr2 rows) && axis_fits (length rows) (length t')
              && forallb (fun r => axis_fits (length (hd [] rows)) (length r)) t');
      [|discriminate].
    intros [= <-] [= <-]. now apply zip_select_Forall2.
Qed.

Lemma membrane_gbar_inv (selector : ndarray) (lo hi : list float) :
  _get_min_max_membrane_gbar selector = Ok (lo, hi) ->
  bool_index2 membrane_cond_mins selector = Ok lo
  /\ bool_index2 membrane_cond_maxs selector = Ok hi.
Proof.
  unfold _get_min_max_membrane_gbar.
  destruct (bool_index2 membrane_cond_mins selector) as [a|]; [|discriminate].
  destruct (bool_index2 membrane_cond_maxs selector) as [c|]; [|discriminate].
  cbn [bind]. now intros [= <- <-].
Qed.

Lemma membrane_cond_mins_cells :
  membrane_cond_mins = map (fun i => map (MembraneSpec.lower_cell i) (seq 0 8)) (seq 0 3).
Proof. vm_compute. reflexivity. Qed.

Lemma membrane_cond_maxs_cells :
  membrane_cond_maxs = map (fun i => map (MembraneSpec.upper_cell i) (seq 0 8)) (seq 0 3).
Proof. vm_compute. reflexivity. Qed.

Lemma zip_select_cells {A : Type} (f : nat -> nat -> A) (n k : nat)
    (rows : list (list bool)) :
  length rows = k -> Forall (fun m => length m = n) rows ->
  concat (zip_rows mask_select (map (fun i => map (f i) (seq 0 n)) (seq 0 k)) rows)
  = map (fun c => f (fst c) (snd c))
      (flat_map
         (fun i => map (pair i)
                     (List.filter (fun j => nth j (nth i rows []) false) (seq 0 n)))
         (seq 0 k)).
Proof.
  intros <- Hrows. rewrite (zip_select_tabulate f n rows 0 Hrows).
  f_equal. rewrite !flat_map_concat_map. f_equal.
  apply map_ext. intros i. now rewrite Nat.sub_0_r.
Qed.

Lemma membrane_cond_mins_nonneg :
  Forall (fun l => (0 <=? l) = true) (concat membrane_cond_mins).
Proof. vm_compute. repeat constructor. Qed.

Lemma membrane_gbar_3x8 (rows : list (list bool)) :
  is_3x8 (Arr2 rows) = true ->
  _get_min_max_membrane_gbar (Arr2 rows)
  = Ok (concat (zip_rows mask_select membrane_cond_mins rows),
        concat (zip_rows mask_select membrane_cond_maxs rows)).
Proof.
  intros H. apply (fits_membrane_index_fits (Arr2 rows)) in H.
  unfold _get_min_max_membrane_gbar, bool_index2.
  rewrite !index2_check_3x8, H by reflexivity. reflexivity.
Qed.

(** C1: for every 3×8 mask the membrane contribution computed by the code
    is, cell by cell, what the spec describes (reference minimum and
    maximum scaled by 0.628e-3, the scaled padding of the column taken off
    the minimum and added to the maximum, a negative minimum replaced by
    zero), restricted to the cells the mask keeps, in row-major order; and
    every selected lower bound is at least zero. *)
Theorem membrane_gbar_refines_spec (rows : list (list bool)) :
  is_3x8 (Arr2 rows) = true ->
  _get_min_max_membrane_gbar (Arr2 rows) = Ok (MembraneSpec.bounds rows)
  /\ Forall (fun l => (0 <=? l) = true) (fst (MembraneSpec.bounds rows)).
Proof.
  intros H. pose proof (membrane_gbar_3x8 rows H) as Hcode.
  apply is_3x8_rows in H as [H3 H8].
  assert (Hl : concat (zip_rows mask_select membrane_cond_mins rows)
               = fst (MembraneSpec.bounds rows)).
  { rewrite membrane_cond_mins_cells. now apply zip_select_cells. }
  assert (Hu : concat (zip_rows mask_select membrane_cond_maxs rows)
               = snd (MembraneSpec.bounds rows)).
  { rewrite membrane_cond_maxs_cells. now apply zip_select_cells. }
  split.
  - rewrite Hcode, Hl, Hu. now destruct (MembraneSpec.bounds rows).
  - rewrite <- Hl. apply List.Forall_forall. intros x Hx.
    apply zip_select_In in Hx.
    exact (proj1 (List.Forall_forall _ _) membrane_cond_mins_nonneg x Hx).
Qed.

Lemma membrane_gbar_refines_spec_witness :
  is_3x8
    (Arr2 [ [true; false; false; false; false; true; false; false];
            [false; false; true; false; false; false; false; true];
            [false; false; false; false; false; false; false; false] ]) = true
  /\ _get_min_max_membrane_gbar
    (Arr2 [ [true; false; false; false; false; true; false; false];
            [false; false; true; false; false; false; false; true];
            [false; false; false; false; false; false; false; false] ])
    = Ok ([0; 0.015699999999999999; 0.001256; 6.28e-06],
          [0.31399999999999995; 0.094200000000000006; 0.0075360000000000002; 2.512e-05])
  /\ Forall (fun l => (0 <=? l) = true) [0; 0.015699999999999999; 0.001256; 6.28e-06].
Proof.
  split; [reflexivity|].
  exact (membrane_gbar_refines_spec
           [ [true; false; false; false; false; true; false; false];
             [false; false; true; false; false; false; false; true];
             [false; false; false; false; false; false; false; false] ]
           eq_refl).
Defined.

(** ** The assembled bounds *)

Lemma bind_Ok_inv {A B : Type} (r : result A) (k : A -> result B) (y : B) :
  bind r k = Ok y -> exists a, r = Ok a /\ k a = Ok y.
Proof. destruct r as [a|e]; [eauto|discriminate]. Qed.

Lemma getitem_Ok (setups : gmap string ndarray) (key : string) (a : ndarray) :
  getitem setups key = Ok a <-> setups !! key = Some a.
Proof. unfold getitem. destruct (setups !! key); split; congruence. Qed.

(** Peel the first step off a computation that is known to return. *)
Ltac bind_inv H :=
  lazymatch type of H with
  | bind (getitem _ _) _ = Ok _ =>
      let a := fresh "mask" in
      let E := fresh "Hget" in
      apply bind_Ok_inv in H as (a & E & H); apply getitem_Ok in E
  | bind _ _ = Ok _ =>
      let lo := fresh "lo" in
      let hi := fresh "hi" in
      let E := fresh "Hgroup" in
      apply bind_Ok_inv in H as ([lo hi] & E & H)
  | (let '(_, _) := ?p in _) = Ok _ =>
      let E := fresh "Hsyn" in destruct p eqn:E
  end.

Lemma prior_bounds_inv (log : float -> float) (setups : gmap string ndarray)
    (b : bool) (l u : list float) :
  prior_bounds log setups b = Ok (l, u) ->
  exists m gs,
    read_masks setups = Some m
    /\ group_bounds log b m = map Ok gs
    /\ l = concat (map fst gs) /\ u = concat (map snd gs).
Proof.
  unfold prior_bounds. intros H. repeat bind_inv H.
  injection H as <- <-.
  eexists {| membrane_gbar := _ |}, [_; _; _; _; _; _; _; _].
  unfold read_masks, group_bounds; cbn [membrane_gbar Q10_gbar_mem Q10_gbar_syn Q10_tau_m
    Q10_tau_h Q10_tau_CaBuff Q10_tau_syn map].
  rewrite Hget, Hget0, Hget1, Hget2, Hget3, Hget4, Hget5.
  rewrite Hgroup, Hsyn, Hgroup0, Hgroup1, Hgroup2, Hgroup3, Hgroup4, Hgroup5.
  cbn [map fst snd concat]. rewrite !app_nil_r. auto.
Qed.

Lemma prior_bounds_intro (log : float -> float) (setups : gmap string ndarray)
    (b : bool) (m : masks) (gs : list (list float * list float)) :
  read_masks setups = Some m ->
  group_bounds log b m = map Ok gs ->
  prior_bounds log setups b = Ok (concat (map fst gs), concat (map snd gs)).
Proof.
  unfold read_masks, group_bounds, prior_bounds, getitem. intros Hread Hgroups.
  repeat lazymatch type of Hread with
         | context [match ?x with _ => _ end] => destruct x; try discriminate Hread
         end.
  injection Hread as <-. cbn [membrane_gbar Q10_gbar_mem Q10_gbar_syn Q10_tau_m
    Q10_tau_h Q10_tau_CaBuff Q10_tau_syn] in Hgroups.
  do 9 (destruct gs as [|[? ?] gs]; try discriminate Hgroups).
  injection Hgroups as E0 E1 E2 E3 E4 E5 E6 E7.
  cbn [bind]. rewrite E0. cbn [bind]. rewrite E1, E2. cbn [bind]. rewrite E3.
  cbn [bind]. rewrite E4. cbn [bind]. rewrite E5. cbn [bind]. rewrite E6.
  cbn [bind]. rewrite E7.
  cbn [bind map fst snd concat]. rewrite !app_nil_r. reflexivity.
Qed.

(** *** The groups one by one *)

Lemma mask_select_repeat {A : Type} (x : A) (m : list bool) :
  mask_select (repeat x (length m)) m = repeat x (length (List.filter id m)).
Proof.
  induction m as [|b m IH]; [reflexivity|].
  destruct b; cbn [length repeat mask_select List.filter id]; now rewrite IH.
Qed.

(** On a one-dimensional mask [_select] returns, for every [True] of the
    mask, the minimum and the maximum it was given. *)
Lemma _select_flat (minimum_val maximum_val : float) (cells : list bool) :
  _select minimum_val maximum_val (Arr1 cells)
  = Ok (repeat (minimum_val * 1) (count_true (Arr1 cells)),
        repeat (maximum_val * 1) (count_true (Arr1 cells))).
Proof.
  unfold _select, bool_index1. cbn [shape prod fold_right count_true].
  rewrite Nat.mul_1_r, !length_map, repeat_length, axis_fits_refl. cbn [bind].
  rewrite !map_repeat, !mask_select_repeat. reflexivity.
Qed.

Lemma _select_nested (minimum_val maximum_val : float) (rows : list (list bool)) :
  _select minimum_val maximum_val (Arr2 rows) = Raise IndexError.
Proof. reflexivity. Qed.

Lemma _select_ordered (minimum_val maximum_val : float) (selector : ndarray)
    (lo hi : list float) :
  (minimum_val * 1 <=? maximum_val * 1) = true ->
  _select minimum_val maximum_val selector = Ok (lo, hi) -> ordered lo hi.
Proof.
  intros Hle. destruct selector as [cells|rows]; [|discriminate].
  rewrite _select_flat. intros [= <- <-].
  unfold ordered. cbn [count_true]. generalize (length (List.filter id cells)).
  intros n. induction n; cbn [repeat]; now constructor.
Qed.

Lemma membrane_tables_ordered :
  Forall2 (Forall2 (fun l u => (l <=? u) = true)) membrane_cond_mins membrane_cond_maxs.
Proof. vm_compute. repeat constructor. Qed.

Lemma membrane_gbar_ordered (selector : ndarray) (lo hi : list float) :
  _get_min_max_membrane_gbar selector = Ok (lo, hi) -> ordered lo hi.
Proof.
  intros [Hlo Hhi]%membrane_gbar_inv.
  exact (bool_index2_related _ _ _ _ _ _ membrane_tables_ordered Hlo Hhi).
Qed.

Lemma synapse_gbar_linear_ordered (log : float -> float) :
  ordered (fst (_get_min_max_synapse_gbar log 1e-08 0.001 false))
          (snd (_get_min_max_synapse_gbar log 1e-08 0.001 false)).
Proof. vm_compute. repeat constructor. Qed.

Lemma synapse_gbar_log_ordered (log : float -> float) :
  (log 1e-08 <=? log 0.001) = true ->
  (log 1e-08 <=? log 0.01) = true ->
  ordered (fst (_get_min_max_synapse_gbar log 1e-08 0.001 true))
          (snd (_get_min_max_synapse_gbar log 1e-08 0.001 true)).
Proof. intros H3 H2. vm_compute. repeat constructor; assumption. Qed.

Lemma ordered_concat (gs : list (list float * list float)) :
  Forall (fun g => ordered (fst g) (snd g)) gs ->
  ordered (concat (map fst gs)) (concat (map snd gs)).
Proof.
  unfold ordered. induction 1; cbn [map concat]; [constructor|now apply Forall2_app].
Qed.

(** Whenever the bounds are computed, they are ordered, given that the
    logarithm orders the two pairs of arguments it is taken at. *)
Lemma prior_bounds_ordered (log : float -> float) (setups : gmap string ndarray)
    (b : bool) (l u : list float) :
  (b = true -> (log 1e-08 <=? log 0.001) = true /\ (log 1e-08 <=? log 0.01) = true) ->
  prior_bounds log setups b = Ok (l, u) -> ordered l u.
Proof.
  intros Hlog (m & gs & _ & Hgroups & -> & ->)%prior_bounds_inv.
  apply ordered_concat. unfold group_bounds in Hgroups.
  do 9 (destruct gs as [|[? ?] gs]; try discriminate Hgroups).
  injection Hgroups as E0 E1 E2 E3 E4 E5 E6 E7.
  repeat constructor; cbn [fst snd];
    try (eapply _select_ordered; [|eassumption]; reflexivity).
  - eapply membrane_gbar_ordered; eassumption.
  - destruct b.
    + destruct (Hlog eq_refl) as [H3 H2].
      pose proof (synapse_gbar_log_ordered log H3 H2) as H. now rewrite E1 in H.
    + pose proof (synapse_gbar_linear_ordered log) as H. now rewrite E1 in H.
Qed.

(** *** Well-shaped configurations *)

Lemma read_masks_lookup (setups : gmap string ndarray) (m : masks) :
  read_masks setups = Some m ->
  map (fun key => setups !! key) mask_keys
  = map Some [ membrane_gbar m; Q10_gbar_mem m; Q10_gbar_syn m; Q10_tau_m m;
               Q10_tau_h m; Q10_tau_CaBuff m; Q10_tau_syn m ].
Proof.
  unfold read_masks, mask_keys, q10_keys. cbn [map]. intros Hread.
  repeat lazymatch type of Hread with
         | context [match ?x with _ => _ end] => destruct x; try discriminate Hread
         end.
  now injection Hread as <-.
Qed.

Lemma well_shaped_masks (setups : gmap string ndarray) :
  well_shaped setups = true ->
  exists rows c1 c2 c3 c4 c5 c6,
    is_3x8 (Arr2 rows) = true
    /\ read_masks setups
       = Some {| membrane_gbar := Arr2 rows; Q10_gbar_mem := Arr1 c1;
                 Q10_gbar_syn := Arr1 c2; Q10_tau_m := Arr1 c3;
                 Q10_tau_h := Arr1 c4; Q10_tau_CaBuff := Arr1 c5;
                 Q10_tau_syn := Arr1 c6 |}.
Proof.
  unfold well_shaped, read_masks, q10_keys. cbn [forallb]. intros H.
  repeat (apply andb_true_iff in H as [? H]).
  repeat match goal with
         | Hk : from_option _ false (setups !! ?key) = true |- _ =>
             destruct (setups !! key) as [[?|?]|]; try discriminate Hk
         end.
  cbn [from_option] in *. eauto 10.
Qed.

Lemma prior_bounds_well_shaped (log : float -> float) (setups : gmap string ndarray)
    (b : bool) :
  well_shaped setups = true ->
  exists rows c1 c2 c3 c4 c5 c6,
    is_3x8 (Arr2 rows) = true
    /\ map (fun key => setups !! key) mask_keys
       = map Some [Arr2 rows; Arr1 c1; Arr1 c2; Arr1 c3; Arr1 c4; Arr1 c5; Arr1 c6]
    /\ let gs := well_shaped_groups log b rows
                   [ (1.0, 2.0, c1); (1.0, 2.0, c2); (1.0, 4.0, c3);
                     (1.0, 4.0, c4); (1.0, 4.0, c5); (1.0, 4.0, c6) ] in
       prior_bounds log setups b = Ok (concat (map fst gs), concat (map snd gs)).
Proof.
  intros (rows & c1 & c2 & c3 & c4 & c5 & c6 & H38 & Hread)%well_shaped_masks.
  exists rows, c1, c2, c3, c4, c5, c6. split; [exact H38|]. split.
  - exact (read_masks_lookup _ _ Hread).
  - cbv zeta. apply (prior_bounds_intro _ _ _ _ _ Hread).
    unfold group_bounds, well_shaped_groups.
    cbn [membrane_gbar Q10_gbar_mem Q10_gbar_syn Q10_tau_m Q10_tau_h Q10_tau_CaBuff
         Q10_tau_syn map].
    now rewrite (membrane_gbar_3x8 rows H38), !_select_flat.
Qed.

Lemma synapse_gbar_length (log : float -> float) (min_val max_val : float) (b : bool) :
  length (fst (_get_min_max_synapse_gbar log min_val max_val b)) = 7%nat
  /\ length (snd (_get_min_max_synapse_gbar log min_val max_val b)) = 7%nat.
Proof. destruct b; split; reflexivity. Qed.

(** ** The claims on the assembled bounds *)

Lemma membrane_select_lengths (rows : list (list bool)) :
  is_3x8 (Arr2 rows) = true ->
  length (concat (zip_rows mask_select membrane_cond_mins rows)) = count_true (Arr2 rows)
  /\ length (concat (zip_rows mask_select membrane_cond_maxs rows)) = count_true (Arr2 rows).
Proof.
  intros H. cbn [count_true].
  split; apply zip_select_length, same_row_lengths_spec;
    now rewrite same_row_lengths_3x8.
Qed.

(** C4 (amended): for every well-shaped mask configuration the lower and
    the upper bound vector have the same length, and that length is the
    number of [True] entries of all the selection masks plus 7, the
    synaptic entries, which no mask selects. *)
Theorem bounds_length_is_active_count_plus_synapses
    (log : float -> float) (setups : gmap string ndarray) (b : bool) :
  well_shaped setups = true ->
  exists l u,
    prior_bounds log setups b = Ok (l, u)
    /\ length l = length u
    /\ length l = (active_mask_count setups + 7)%nat.
Proof.
  intros Hws.
  destruct (prior_bounds_well_shaped log setups b Hws)
    as (rows & c1 & c2 & c3 & c4 & c5 & c6 & H38 & Hlook & Hbounds).
  cbv zeta in Hbounds. eexists _, _. split; [exact Hbounds|].
  destruct (membrane_select_lengths rows H38) as [Hlo Hhi].
  destruct (synapse_gbar_length log 1e-08 0.001 b) as [Hsl Hsu].
  assert (Hcount : active_mask_count setups
                   = list_sum (map count_true
                       [Arr2 rows; Arr1 c1; Arr1 c2; Arr1 c3; Arr1 c4; Arr1 c5; Arr1 c6])).
  { unfold active_mask_count.
    rewrite <- (map_map (fun key => setups !! key) (from_option count_true 0%nat)), Hlook.
    now rewrite map_map. }
  rewrite Hcount. unfold well_shaped_groups.
  cbn [map fst snd concat list_sum].
  rewrite !length_app, !repeat_length, Hlo, Hhi, Hsl, Hsu. cbn [length list_sum fold_right]. lia.
Qed.

Lemma bounds_length_is_active_count_plus_synapses_witness :
  well_shaped (resolve_setups example_customization) = true
  /\ exists l u,
       prior_bounds log_table (resolve_setups example_customization) false = Ok (l, u)
       /\ length l = length u
       /\ length l = (active_mask_count (resolve_setups example_customization) + 7)%nat.
Proof.
  assert (Hws : well_shaped (resolve_setups example_customization) = true)
    by (vm_compute; reflexivity).
  split; [exact Hws|].
  exact (bounds_length_is_active_count_plus_synapses log_table _ false Hws).
Defined.

(** C4 (as stated) fails on the default configuration: the masks hold 24
    [True] entries, the bound vectors have 31 entries. *)
Lemma default_bounds_longer_than_mask_count :
  well_shaped (resolve_setups ∅) = true
  /\ active_mask_count (resolve_setups ∅) = 24%nat
  /\ exists l u,
       prior_bounds log_table (resolve_setups ∅) true = Ok (l, u)
       /\ length l = 31%nat /\ length u = 31%nat
       /\ length l <> active_mask_count (resolve_setups ∅).
Proof.
  split; [vm_compute; reflexivity|]. split; [vm_compute; reflexivity|].
  eexists _, _. split; [vm_compute; reflexivity|].
  split; [reflexivity|]. split; [reflexivity|].
  vm_compute. discriminate.
Qed.

(** C5: for every well-shaped mask configuration and either value of
    [synapses_log_space] the bounds are computed and [lower[i] <= upper[i]]
    at every index [i]; in log space this takes that the logarithm orders
    the two pairs of arguments it is applied to. *)
Theorem bounds_lower_le_upper
    (log : float -> float) (setups : gmap string ndarray) (b : bool) :
  (b = true -> (log 1e-08 <=? log 0.001) = true /\ (log 1e-08 <=? log 0.01) = true) ->
  well_shaped setups = true ->
  exists l u,
    prior_bounds log setups b = Ok (l, u)
    /\ length l = length u
    /\ forall (i : nat) (x y : float),
         l !! i = Some x -> u !! i = Some y -> (x <=? y) = true.
Proof.
  intros Hlog Hws.
  destruct (prior_bounds_well_shaped log setups b Hws)
    as (rows & c1 & c2 & c3 & c4 & c5 & c6 & _ & _ & Hbounds).
  cbv zeta in Hbounds. eexists _, _. split; [exact Hbounds|].
  pose proof (prior_bounds_ordered _ _ _ _ _ Hlog Hbounds) as Hord.
  split; [exact (Forall2_length _ _ _ Hord)|].
  intros i x y Hx Hy. exact (Forall2_lookup_lr _ _ _ _ _ _ Hord Hx Hy).
Qed.

Lemma bounds_lower_le_upper_witness :
  ((log_table 1e-08 <=? log_table 0.001) = true
   /\ (log_table 1e-08 <=? log_table 0.01) = true)
  /\ well_shaped (resolve_setups example_customization) = true
  /\ exists l u,
       prior_bounds log_table (resolve_setups example_customization) true = Ok (l, u)
       /\ length l = length u
       /\ forall (i : nat) (x y : float),
            l !! i = Some x -> u !! i = Some y -> (x <=? y) = true.
Proof.
  assert (Hlog : (log_table 1e-08 <=? log_table 0.001) = true
                 /\ (log_table 1e-08 <=? log_table 0.01) = true)
    by (split; vm_compute; reflexivity).
  assert (Hws : well_shaped (resolve_setups example_customization) = true)
    by (vm_compute; reflexivity).
  split; [exact Hlog|]. split; [exact Hws|].
  exact (bounds_lower_le_upper log_table _ true (fun _ => Hlog) Hws).
Defined.

(** C7: the bounds are computed exactly when every mask is read and every
    group's calculator returns, and then the lower and the upper vector are
    the concatenations of the groups' lower and upper vectors in the
    canonical order of [group_bounds]: membrane conductances, synaptic
    conductances, Q10 of the membrane and of the synaptic conductances, Q10
    of the membrane, inactivation, calcium-buffer and synapse time
    constants; no entry is changed on the way. *)
Theorem bounds_concatenate_groups_in_canonical_order
    (log : float -> float) (setups : gmap string ndarray) (b : bool)
    (l u : list float) :
  prior_bounds log setups b = Ok (l, u)
  <-> exists m gs,
        read_masks setups = Some m
        /\ group_bounds log b m = map Ok gs
        /\ l = concat (map fst gs) /\ u = concat (map snd gs).
Proof.
  split.
  - apply prior_bounds_inv.
  - intros (m & gs & Hread & Hgroups & -> & ->). now apply prior_bounds_intro with m.
Qed.

(** C2: with all membrane conductances excluded, the default Q10 masks and
    synapses in log space, the membrane group and the masks select nothing
    and the bounds are the 7 synaptic ones: the lower bound is [log 1e-8]
    seven times, the upper bound is [log 1e-2] followed by [log 1e-3] six
    times; [create_prior] hands exactly these to the wrapper. *)
Theorem no_membrane_prior_is_seven_synapses
    (log : float -> float) (sampler : Type)
    (BoxUniform : list float -> list float -> result sampler) :
  prior_bounds log (resolve_setups no_membrane_customization) true
  = Ok (repeat (log 1e-08) 7,
        [log 1e-02; log 1e-03; log 1e-03; log 1e-03; log 1e-03; log 1e-03; log 1e-03])
  /\ active_mask_count (resolve_setups no_membrane_customization) = 0%nat
  /\ create_prior log sampler BoxUniform None None no_membrane_customization true
     = pd_prior_init sampler BoxUniform
         (repeat (log 1e-08) 7)
         [log 1e-02; log 1e-03; log 1e-03; log 1e-03; log 1e-03; log 1e-03; log 1e-03]
         (repeat "Synapses"%string 7, seq 0 7).
Proof. repeat split; vm_compute; reflexivity. Qed.

(** C3: with the default configuration and synapses in log space the
    membrane group yields 24 entries, the synaptic group 7, every Q10 mask
    holds no [True] and its group yields nothing, and the lower and the
    upper bound vector are the 24 membrane entries followed by the 7
    synaptic ones: 31 entries each. *)
Theorem default_bounds_have_31_entries (log : float -> float) :
  exists gbar_l gbar_u syn_l syn_u,
    (exists mask, resolve_setups ∅ !! "membrane_gbar"%string = Some mask
                  /\ count_true mask = 24%nat
                  /\ _get_min_max_membrane_gbar mask = Ok (gbar_l, gbar_u))
    /\ length gbar_l = 24%nat /\ length gbar_u = 24%nat
    /\ _get_min_max_synapse_gbar log 1e-08 0.001 true = (syn_l, syn_u)
    /\ length syn_l = 7%nat /\ length syn_u = 7%nat
    /\ Forall (fun key => exists mask,
                 resolve_setups ∅ !! key = Some mask
                 /\ count_true mask = 0%nat
                 /\ forall lo hi, _select lo hi mask = Ok ([], [])) q10_keys
    /\ prior_bounds log (resolve_setups ∅) true = Ok (gbar_l ++ syn_l, gbar_u ++ syn_u)
    /\ length (gbar_l ++ syn_l) = 31%nat /\ length (gbar_u ++ syn_u) = 31%nat.
Proof.
  eexists _, _, _, _. split.
  { eexists. split; [vm_compute; reflexivity|]. split; vm_compute; reflexivity. }
  do 2 (split; [reflexivity|]). split; [vm_compute; reflexivity|].
  do 2 (split; [reflexivity|]). split.
  { repeat constructor; eexists; (split; [vm_compute; reflexivity|]);
      (split; [reflexivity|]); intros lo hi; reflexivity. }
  split; [vm_compute; reflexivity|]. split; reflexivity.
Qed.

(** ** The claims on the factory *)

Lemma bool_index2_is_ok {A : Type} (t : list (list A)) (selector : ndarray) :
  map (@length A) t = [8; 8; 8]%nat ->
  fits_membrane selector = true -> is_ok (bool_index2 t selector) = true.
Proof.
  intros Ht Hfit. rewrite (bool_index2_is_ok_3x8 t selector Ht).
  now apply fits_membrane_index_fits.
Qed.

Lemma is_ok_true {A : Type} (r : result A) : is_ok r = true -> exists a, r = Ok a.
Proof. destruct r; [eauto|discriminate]. Qed.

Lemma membrane_gbar_index_fits (selector : ndarray) (lo hi : list float) :
  _get_min_max_membrane_gbar selector = Ok (lo, hi) ->
  index_fits_membrane selector = true.
Proof.
  intros [Hlo _]%membrane_gbar_inv.
  rewrite <- (bool_index2_is_ok_3x8 membrane_cond_mins selector eq_refl), Hlo.
  reflexivity.
Qed.

Lemma q10_names_flat (setups : gmap string ndarray) (key : string) (cells : list bool) :
  setups !! key = Some (Arr1 cells) -> exists ns, q10_names setups key = Ok ns.
Proof.
  intros Hget. unfold q10_names, getitem, bool_index1. rewrite Hget.
  cbn [bind shape prod fold_right]. rewrite length_seq, Nat.mul_1_r, axis_fits_refl.
  cbn [bind]. eauto.
Qed.

Lemma _select_Ok_flat (lo hi : float) (selector : ndarray) (g : list float * list float) :
  _select lo hi selector = Ok g -> exists cells, selector = Arr1 cells.
Proof. destruct selector; [eauto|discriminate]. Qed.

(** The name resolver returns on every configuration the bound calculator
    returns on. *)
Lemma select_names_returns (log : float -> float) (setups : gmap string ndarray)
    (b : bool) (l u : list float) :
  prior_bounds log setups b = Ok (l, u) -> exists ns, select_names setups = Ok ns.
Proof.
  intros (m & gs & Hread & Hgroups & _)%prior_bounds_inv.
  apply read_masks_lookup in Hread. unfold mask_keys, q10_keys in Hread.
  injection Hread as H0 H1 H2 H3 H4 H5 H6.
  unfold group_bounds in Hgroups.
  do 9 (destruct gs as [|[? ?] gs]; try discriminate Hgroups).
  injection Hgroups as E0 _ E1 E2 E3 E4 E5 E6.
  apply membrane_gbar_index_fits in E0.
  apply _select_Ok_flat in E1 as [c1 E1], E2 as [c2 E2], E3 as [c3 E3],
    E4 as [c4 E4], E5 as [c5 E5], E6 as [c6 E6].
  rewrite E1 in H1. rewrite E2 in H2. rewrite E3 in H3.
  rewrite E4 in H4. rewrite E5 in H5. rewrite E6 in H6.
  destruct (q10_names_flat _ _ _ H1) as [n1 N1], (q10_names_flat _ _ _ H2) as [n2 N2],
    (q10_names_flat _ _ _ H3) as [n3 N3], (q10_names_flat _ _ _ H4) as [n4 N4],
    (q10_names_flat _ _ _ H5) as [n5 N5], (q10_names_flat _ _ _ H6) as [n6 N6].
  destruct (is_ok_true (bool_index2 row_labels (membrane_gbar m))) as [ts Hts];
    [now rewrite bool_index2_is_ok_3x8|].
  destruct (is_ok_true (bool_index2 column_indices (membrane_gbar m))) as [cs Hcs];
    [now rewrite bool_index2_is_ok_3x8|].
  unfold select_names, getitem. rewrite H0. cbn [bind].
  rewrite Hts. cbn [bind]. rewrite Hcs. cbn [bind].
  rewrite N1. cbn [bind]. rewrite N2. cbn [bind]. rewrite N3. cbn [bind].
  rewrite N4. cbn [bind]. rewrite N5. cbn [bind]. rewrite N6. cbn [bind]. eauto.
Qed.

Lemma create_prior_hands_over
    (log : float -> float) (sampler : Type)
    (BoxUniform : list float -> list float -> result sampler)
    (lower_bound upper_bound : option (list float))
    (customization : gmap string ndarray) (b : bool) (l_bound u_bound : list float) :
  prior_bounds log (resolve_setups customization) b = Ok (l_bound, u_bound) ->
  exists ns,
    select_names (resolve_setups customization) = Ok ns
    /\ create_prior log sampler BoxUniform lower_bound upper_bound customization b
       = pd_prior_init sampler BoxUniform
           (default l_bound lower_bound) (default u_bound upper_bound) ns.
Proof.
  intros Hbounds. destruct (select_names_returns _ _ _ _ _ Hbounds) as [[ts cs] Hns].
  exists (ts, cs). split; [exact Hns|].
  unfold create_prior. rewrite Hbounds. cbn [bind]. rewrite Hns. cbn [bind].
  now destruct lower_bound, upper_bound.
Qed.

(** *** Keys outside the catalog *)

Lemma resolve_setups_insert (customization : gmap string ndarray)
    (key : string) (entry : ndarray) :
  resolve_setups (<[key := entry]> customization)
  = <[key := entry]> (resolve_setups customization).
Proof.
  unfold resolve_setups. cbv zeta. now rewrite <- insert_union_l, fmap_insert.
Qed.

Lemma not_in_mask_keys (key : string) :
  ~ In key mask_keys ->
  Forall (fun k => key <> k) mask_keys.
Proof.
  intros Hnot. apply List.Forall_forall. intros k Hk ->. exact (Hnot Hk).
Qed.

Lemma getitem_insert_ne (setups : gmap string ndarray) (key k : string) (entry : ndarray) :
  key <> k -> getitem (<[key := entry]> setups) k = getitem setups k.
Proof. intros Hne. unfold getitem. now rewrite lookup_insert_ne. Qed.

Lemma prior_bounds_insert_other (log : float -> float) (setups : gmap string ndarray)
    (key : string) (entry : ndarray) (b : bool) :
  ~ In key mask_keys ->
  prior_bounds log (<[key := entry]> setups) b = prior_bounds log setups b.
Proof.
  intros Hnot%not_in_mask_keys. unfold mask_keys, q10_keys in Hnot.
  repeat match goal with
         | H : Forall _ (_ :: _) |- _ => apply Forall_cons_iff in H as [? H]
         end.
  unfold prior_bounds. now rewrite !getitem_insert_ne.
Qed.

Lemma select_names_insert_other (setups : gmap string ndarray)
    (key : string) (entry : ndarray) :
  ~ In key mask_keys ->
  select_names (<[key := entry]> setups) = select_names setups.
Proof.
  intros Hnot%not_in_mask_keys. unfold mask_keys, q10_keys in Hnot.
  repeat match goal with
         | H : Forall _ (_ :: _) |- _ => apply Forall_cons_iff in H as [? H]
         end.
  unfold select_names, q10_names. now rewrite !getitem_insert_ne.
Qed.

(** C8 (amended): a key of the customization that is not one of the seven
    recognized keys is merged into the configuration and never read: the
    prior is constructed, or construction fails, exactly as without that
    key. *)
Theorem unrecognized_key_is_ignored
    (log : float -> float) (sampler : Type)
    (BoxUniform : list float -> list float -> result sampler)
    (lower_bound upper_bound : option (list float))
    (customization : gmap string ndarray) (b : bool)
    (key : string) (entry : ndarray) :
  ~ In key mask_keys ->
  create_prior log sampler BoxUniform lower_bound upper_bound
    (<[key := entry]> customization) b
  = create_prior log sampler BoxUniform lower_bound upper_bound customization b.
Proof.
  intros Hnot. unfold create_prior.
  now rewrite resolve_setups_insert, prior_bounds_insert_other, select_names_insert_other.
Qed.

Lemma unrecognized_key_is_ignored_witness :
  ~ In "membrane_gbarr"%string mask_keys
  /\ create_prior log_table box box_uniform None None misspelt_customization true
     = create_prior log_table box box_uniform None None ∅ true.
Proof.
  assert (Hnot : ~ In "membrane_gbarr"%string mask_keys).
  { unfold mask_keys, q10_keys. cbn [In]. intros H.
    repeat (destruct H as [H|H]; [discriminate H|]). exact H. }
  split; [exact Hnot|].
  exact (unrecognized_key_is_ignored log_table box box_uniform None None ∅ true
           "membrane_gbarr"%string _ Hnot).
Defined.

(** C8 (as stated) fails: with the misspelt key the prior is constructed,
    and it is the prior of the default configuration, 31 parameters. *)
Lemma misspelt_key_constructs_default_prior :
  exists p,
    create_prior log_table box box_uniform None None misspelt_customization true = Ok p
    /\ create_prior log_table box box_uniform None None ∅ true = Ok p
    /\ length (lower p) = 31%nat
    /\ misspelt_customization !! "membrane_gbar"%string = None.
Proof.
  eexists. split; [vm_compute; reflexivity|].
  split; [vm_compute; reflexivity|]. split; reflexivity.
Qed.

(** *** Explicit bound vectors *)

Lemma pd_prior_init_cases (sampler : Type)
    (BoxUniform : list float -> list float -> result sampler)
    (l u : list float) (ns : names) :
  match pd_prior_init sampler BoxUniform l u ns with
  | Ok p => BoxUniform l u = Ok (numerical_prior p) /\ lower p = l /\ upper p = u
  | Raise e => BoxUniform l u = Raise e
  end.
Proof. unfold pd_prior_init. destruct (BoxUniform l u); cbn; auto. Qed.

(** C9 (amended): [create_prior] never compares the length of an
    explicit bound vector with the number of active parameters.  Where the
    masks make the computation of the bounds fail, it fails with that
    error whatever vectors are given; otherwise it hands the lower and the
    upper vector (explicit where given, computed where not) to the
    sampler's constructor as they are, never truncated or padded, and
    succeeds with exactly these two vectors, or fails, as that constructor
    does on them. *)
Theorem explicit_bounds_are_handed_over_unchecked
    (log : float -> float) (sampler : Type)
    (BoxUniform : list float -> list float -> result sampler)
    (lower_bound upper_bound : option (list float))
    (customization : gmap string ndarray) (b : bool) :
  match prior_bounds log (resolve_setups customization) b with
  | Ok (l_bound, u_bound) =>
      match create_prior log sampler BoxUniform lower_bound upper_bound
              customization b with
      | Ok p =>
          BoxUniform (default l_bound lower_bound) (default u_bound upper_bound)
          = Ok (numerical_prior p)
          /\ lower p = default l_bound lower_bound
          /\ upper p = default u_bound upper_bound
      | Raise e =>
          BoxUniform (default l_bound lower_bound) (default u_bound upper_bound)
          = Raise e
      end
  | Raise e =>
      create_prior log sampler BoxUniform lower_bound upper_bound customization b
      = Raise e
  end.
Proof.
  destruct (prior_bounds log (resolve_setups customization) b)
    as [[l_bound u_bound]|e] eqn:Hbounds.
  - destruct (create_prior_hands_over log sampler BoxUniform lower_bound upper_bound
                _ _ _ _ Hbounds) as (ns & _ & ->).
    apply pd_prior_init_cases.
  - unfold create_prior. now rewrite Hbounds.
Qed.

(** C9 (as stated) fails: in the default configuration, which has 31
    active parameters, explicit bound vectors of length 1 are accepted. *)
Lemma short_explicit_bounds_are_accepted :
  (exists l u, prior_bounds log_table (resolve_setups ∅) true = Ok (l, u)
               /\ length l = 31%nat /\ length u = 31%nat)
  /\ exists p,
       create_prior log_table box box_uniform (Some [0]) (Some [1]) ∅ true = Ok p
       /\ lower p = [0] /\ upper p = [1].
Proof.
  split.
  - eexists _, _. split; [vm_compute; reflexivity|]. split; reflexivity.
  - eexists. split; [vm_compute; reflexivity|]. split; reflexivity.
Qed.

(** C10: when only the lower bound is given, the prior holds it as it is
    and the computed upper bound; when only the upper bound is given, the
    prior holds it as it is and the computed lower bound; in both cases the
    prior is constructed whenever the sampler accepts these two vectors. *)
Theorem one_explicit_bound_leaves_the_other_computed
    (log : float -> float) (sampler : Type)
    (BoxUniform : list float -> list float -> result sampler)
    (given : list float)
    (customization : gmap string ndarray) (b : bool) (l_bound u_bound : list float) :
  prior_bounds log (resolve_setups customization) b = Ok (l_bound, u_bound) ->
  (forall s, BoxUniform given u_bound = Ok s ->
     exists p,
       create_prior log sampler BoxUniform (Some given) None customization b = Ok p
       /\ lower p = given /\ upper p = u_bound)
  /\ (forall p,
        create_prior log sampler BoxUniform (Some given) None customization b = Ok p ->
        lower p = given /\ upper p = u_bound)
  /\ (forall s, BoxUniform l_bound given = Ok s ->
        exists p,
          create_prior log sampler BoxUniform None (Some given) customization b = Ok p
          /\ lower p = l_bound /\ upper p = given)
  /\ (forall p,
        create_prior log sampler BoxUniform None (Some given) customization b = Ok p ->
        lower p = l_bound /\ upper p = given).
Proof.
  intros Hbounds.
  destruct (create_prior_hands_over log sampler BoxUniform (Some given) None
              _ _ _ _ Hbounds) as (ns & _ & Hlo).
  destruct (create_prior_hands_over log sampler BoxUniform None (Some given)
              _ _ _ _ Hbounds) as (ns' & _ & Hup).
  rewrite Hlo, Hup. cbn [default from_option id]. unfold pd_prior_init.
  split; [|split; [|split]].
  - intros s ->. cbn. eauto.
  - destruct (BoxUniform given u_bound); cbn; [|discriminate].
    intros p [= <-]. split; reflexivity.
  - intros s ->. cbn. eauto.
  - destruct (BoxUniform l_bound given); cbn; [|discriminate].
    intros p [= <-]. split; reflexivity.
Qed.

Lemma one_explicit_bound_leaves_the_other_computed_witness :
  prior_bounds log_table (resolve_setups ∅) true
  = Ok (fst default_bounds, snd default_bounds)
  /\ (forall s, box_uniform (repeat 0 31) (snd default_bounds) = Ok s ->
        exists p,
          create_prior log_table box box_uniform (Some (repeat 0 31)) None ∅ true = Ok p
          /\ lower p = repeat 0 31 /\ upper p = snd default_bounds)
  /\ (forall p,
        create_prior log_table box box_uniform (Some (repeat 0 31)) None ∅ true = Ok p ->
        lower p = repeat 0 31 /\ upper p = snd default_bounds)
  /\ (forall s, box_uniform (fst default_bounds) (repeat 0 31) = Ok s ->
        exists p,
          create_prior log_table box box_uniform None (Some (repeat 0 31)) ∅ true = Ok p
          /\ lower p = fst default_bounds /\ upper p = repeat 0 31)
  /\ (forall p,
        create_prior log_table box box_uniform None (Some (repeat 0 31)) ∅ true = Ok p ->
        lower p = fst default_bounds /\ upper p = repeat 0 31).
Proof.
  assert (H : prior_bounds log_table (resolve_setups ∅) true
              = Ok (fst default_bounds, snd default_bounds))
    by (vm_compute; reflexivity).
  split; [exact H|].
  exact (one_explicit_bound_leaves_the_other_computed log_table box box_uniform
           (repeat 0 31) ∅ true _ _ H).
Defined.

(** ** Further properties of the bound calculator *)

Lemma membrane_gbar_related (R : float -> float -> Prop)
    (selector : ndarray) (lo hi : list float) :
  Forall2 (Forall2 R) membrane_cond_mins membrane_cond_maxs ->
  _get_min_max_membrane_gbar selector = Ok (lo, hi) -> Forall2 R lo hi.
Proof.
  intros Hrel [Hlo Hhi]%membrane_gbar_inv.
  exact (bool_index2_related _ _ _ _ _ _ Hrel Hlo Hhi).
Qed.

Lemma membrane_gbar_raises (selector : ndarray) (e : exn) :
  _get_min_max_membrane_gbar selector = Raise e ->
  index_fits_membrane selector = false /\ e = IndexError.
Proof.
  unfold _get_min_max_membrane_gbar.
  rewrite <- (bool_index2_is_ok_3x8 membrane_cond_mins selector eq_refl).
  pose proof (bool_index2_is_ok_3x8 membrane_cond_mins selector eq_refl) as Hmin.
  pose proof (bool_index2_is_ok_3x8 membrane_cond_maxs selector eq_refl) as Hmax.
  assert (Hraise : forall (t : list (list float)) (e' : exn),
             bool_index2 t selector = Raise e' -> e' = IndexError).
  { intros t e'. unfold bool_index2. destruct selector as [m|rows].
    - destruct (axis_fits (length m) (length t)); [discriminate|]. now intros [= <-].
    - destruct (is_array (Arr2 rows) && axis_fits (length rows) (length t)
                && forallb (fun r => axis_fits (length (hd [] rows)) (length r)) t);
        [discriminate|]. now intros [= <-]. }
  destruct (bool_index2 membrane_cond_mins selector) as [lo|e0] eqn:Elo; cbn [bind].
  - destruct (bool_index2 membrane_cond_maxs selector) as [hi|e1] eqn:Ehi; cbn [bind];
      [discriminate|].
    cbn [is_ok] in Hmin, Hmax. congruence.
  - intros [= <-]. split; [reflexivity|]. exact (Hraise _ _ Elo).
Qed.




(** X2: a flat membrane mask of length 3 keeps whole rows: it yields what
    the nested mask yields whose row [i] repeats entry [i] eight times,
    that is 8 bounds for every [True]. *)
Theorem membrane_row_mask_keeps_whole_rows (m : list bool) :
  length m = 3%nat ->
  _get_min_max_membrane_gbar (Arr1 m)
  = _get_min_max_membrane_gbar (Arr2 (map (fun keep => repeat keep 8) m))
  /\ exists lo hi,
       _get_min_max_membrane_gbar (Arr1 m) = Ok (lo, hi)
       /\ length lo = (8 * count_true (Arr1 m))%nat
       /\ length hi = (8 * count_true (Arr1 m))%nat.
Proof.
  destruct m as [|b0 [|b1 [|b2 [|b3 m]]]]; try discriminate. intros _.
  destruct b0, b1, b2; (split; [vm_compute; reflexivity|]);
    eexists _, _; (split; [vm_compute; reflexivity|]); split; reflexivity.
Qed.

Lemma membrane_row_mask_keeps_whole_rows_witness :
  length [true; false; true] = 3%nat
  /\ _get_min_max_membrane_gbar (Arr1 [true; false; true])
     = _get_min_max_membrane_gbar
         (Arr2 (map (fun keep => repeat keep 8) [true; false; true]))
  /\ exists lo hi,
       _get_min_max_membrane_gbar (Arr1 [true; false; true]) = Ok (lo, hi)
       /\ length lo = (8 * count_true (Arr1 [true; false; true]))%nat
       /\ length hi = (8 * count_true (Arr1 [true; false; true]))%nat.
Proof.
  split; [reflexivity|].
  exact (membrane_row_mask_keeps_whole_rows [true; false; true] eq_refl).
Defined.

(** X3: [_select] returns exactly on a one-dimensional mask, of whatever
    length, and then yields the given minimum and maximum once for every
    [True] of the mask (nothing for a mask without [True]); a nested mask
    makes it raise [IndexError]. *)
Theorem _select_returns_iff_mask_is_flat
    (minimum_val maximum_val : float) (selector : ndarray) :
  match _select minimum_val maximum_val selector with
  | Ok (lo, hi) =>
      is_flat selector = true
      /\ lo = repeat (minimum_val * 1) (count_true selector)
      /\ hi = repeat (maximum_val * 1) (count_true selector)
  | Raise e => is_flat selector = false /\ e = IndexError
  end.
Proof.
  destruct selector as [cells|rows].
  - rewrite _select_flat. auto.
  - rewrite _select_nested. auto.
Qed.

(** ** Further properties of the assembly *)

Lemma accepted_index_accepted (setups : gmap string ndarray) :
  accepted setups = true -> index_accepted setups = true.
Proof.
  unfold accepted, index_accepted. intros [Hmem Hq10]%andb_true_iff.
  rewrite Hq10, andb_true_r.
  destruct (setups !! "membrane_gbar"%string) as [a|]; [|discriminate Hmem].
  now apply fits_membrane_index_fits.
Qed.

Lemma index_accepted_masks (setups : gmap string ndarray) :
  index_accepted setups = true ->
  exists a c1 c2 c3 c4 c5 c6,
    index_fits_membrane a = true
    /\ read_masks setups
       = Some {| membrane_gbar := a; Q10_gbar_mem := Arr1 c1;
                 Q10_gbar_syn := Arr1 c2; Q10_tau_m := Arr1 c3;
                 Q10_tau_h := Arr1 c4; Q10_tau_CaBuff := Arr1 c5;
                 Q10_tau_syn := Arr1 c6 |}.
Proof.
  unfold index_accepted, read_masks, q10_keys. cbn [forallb]. intros H.
  apply andb_true_iff in H as [Hmem H].
  repeat (apply andb_true_iff in H as [? H]).
  destruct (setups !! "membrane_gbar"%string) as [a|]; [|discriminate Hmem].
  repeat match goal with
         | Hk : from_option is_flat false (setups !! ?key) = true |- _ =>
             destruct (setups !! key) as [[?|?]|]; try discriminate Hk
         end.
  cbn [from_option] in *. eauto 10.
Qed.

(** On a configuration whose masks are taken the bounds are the membrane
    bounds, the synaptic bounds and the Q10 bounds, one after the other;
    the flag enters the synaptic bounds only. *)
Lemma prior_bounds_index_accepted (log : float -> float) (setups : gmap string ndarray) :
  index_accepted setups = true ->
  exists a gbar_l gbar_u q10_l q10_u,
    setups !! "membrane_gbar"%string = Some a
    /\ _get_min_max_membrane_gbar a = Ok (gbar_l, gbar_u)
    /\ forall b,
         prior_bounds log setups b
         = Ok (gbar_l ++ fst (_get_min_max_synapse_gbar log 1e-08 0.001 b) ++ q10_l,
               gbar_u ++ snd (_get_min_max_synapse_gbar log 1e-08 0.001 b) ++ q10_u).
Proof.
  intros (a & c1 & c2 & c3 & c4 & c5 & c6 & Hfit & Hread)%index_accepted_masks.
  destruct (is_ok_true (_get_min_max_membrane_gbar a)) as [[gbar_l gbar_u] Hmem].
  { unfold _get_min_max_membrane_gbar.
    destruct (is_ok_true (bool_index2 membrane_cond_mins a)) as [lo ->];
      [now rewrite bool_index2_is_ok_3x8|].
    destruct (is_ok_true (bool_index2 membrane_cond_maxs a)) as [hi ->];
      [now rewrite bool_index2_is_ok_3x8|].
    reflexivity. }
  pose proof (read_masks_lookup _ _ Hread) as Hlook.
  unfold mask_keys in Hlook. injection Hlook as Hget _.
  set (q10 := map (fun '(lo, hi, cells) =>
                     (repeat (lo * 1) (count_true (Arr1 cells)),
                      repeat (hi * 1) (count_true (Arr1 cells))))
                [ (1.0, 2.0, c1); (1.0, 2.0, c2); (1.0, 4.0, c3);
                  (1.0, 4.0, c4); (1.0, 4.0, c5); (1.0, 4.0, c6) ]).
  exists a, gbar_l, gbar_u, (concat (map fst q10)), (concat (map snd q10)).
  split; [exact Hget|]. split; [exact Hmem|]. intros b.
  rewrite (prior_bounds_intro log setups b _
             ((gbar_l, gbar_u) :: _get_min_max_synapse_gbar log 1e-08 0.001 b :: q10)
             Hread).
  - reflexivity.
  - unfold group_bounds, q10.
    cbn [membrane_gbar Q10_gbar_mem Q10_gbar_syn Q10_tau_m Q10_tau_h Q10_tau_CaBuff
         Q10_tau_syn map].
    rewrite Hmem, !_select_flat. reflexivity.
Qed.

Lemma prior_bounds_accepted (log : float -> float) (setups : gmap string ndarray) :
  accepted setups = true ->
  exists a gbar_l gbar_u q10_l q10_u,
    setups !! "membrane_gbar"%string = Some a
    /\ _get_min_max_membrane_gbar a = Ok (gbar_l, gbar_u)
    /\ forall b,
         prior_bounds log setups b
         = Ok (gbar_l ++ fst (_get_min_max_synapse_gbar log 1e-08 0.001 b) ++ q10_l,
               gbar_u ++ snd (_get_min_max_synapse_gbar log 1e-08 0.001 b) ++ q10_u).
Proof.
  intros Hacc%accepted_index_accepted. now apply prior_bounds_index_accepted.
Qed.

Lemma prior_bounds_returns_accepted (log : float -> float)
    (setups : gmap string ndarray) (b : bool) (l u : list float) :
  prior_bounds log setups b = Ok (l, u) -> index_accepted setups = true.
Proof.
  intros (m & gs & Hread & Hgroups & _)%prior_bounds_inv.
  apply read_masks_lookup in Hread. unfold mask_keys, q10_keys in Hread.
  injection Hread as H0 H1 H2 H3 H4 H5 H6.
  unfold group_bounds in Hgroups.
  do 9 (destruct gs as [|[? ?] gs]; try discriminate Hgroups).
  injection Hgroups as E0 _ E1 E2 E3 E4 E5 E6.
  apply membrane_gbar_index_fits in E0.
  apply _select_Ok_flat in E1 as [c1 E1], E2 as [c2 E2], E3 as [c3 E3],
    E4 as [c4 E4], E5 as [c5 E5], E6 as [c6 E6].
  unfold index_accepted, q10_keys. cbn [forallb].
  rewrite H0, H1, H2, H3, H4, H5, H6, E1, E2, E3, E4, E5, E6.
  cbn [from_option is_flat]. now rewrite E0.
Qed.

Lemma prior_bounds_raises_IndexError (log : float -> float)
    (setups : gmap string ndarray) (b : bool) (m : masks) (e : exn) :
  read_masks setups = Some m ->
  prior_bounds log setups b = Raise e -> e = IndexError.
Proof.
  intros Hread. apply read_masks_lookup in Hread. unfold mask_keys, q10_keys in Hread.
  injection Hread as H0 H1 H2 H3 H4 H5 H6.
  unfold prior_bounds, getitem. rewrite H0, H1, H2, H3, H4, H5, H6. cbn [bind].
  destruct (_get_min_max_membrane_gbar (membrane_gbar m)) as [[? ?]|e0] eqn:E0;
    cbn [bind]; [|intros [= <-]; exact (proj2 (membrane_gbar_raises _ _ E0))].
  destruct (_get_min_max_synapse_gbar log 1e-08 0.001 b) as [syn_l syn_u].
  repeat match goal with
         | |- bind (_select ?lo ?hi ?sel) _ = Raise _ -> _ =>
             destruct sel as [?|?];
             [rewrite _select_flat; cbn [bind]
             |rewrite _select_nested; cbn [bind]; now intros [= <-]]
         end.
  discriminate.
Qed.

(** ** The claim on the log-space flag *)

(** C6 (amended): the synaptic bounds in log space are exactly the
    logarithm, entry by entry, of the synaptic bounds in linear space, which
    are 1e-8 seven times and 1e-2 followed by 1e-3 six times, and on every
    configuration whose masks are taken the flag changes nothing else in the
    bounds; the exponential of the bounds in log space is, entry by entry,
    as close to the bounds in linear space as the exponential of the
    logarithm is to its argument at 1e-8, 1e-3 and 1e-2: to a tolerance, not
    exactly. *)
Theorem synapse_log_space_round_trip
    (log exp : float -> float) (close : float -> float -> Prop)
    (setups : gmap string ndarray) :
  close (exp (log 1e-08)) 1e-08 ->
  close (exp (log 0.001)) 0.001 ->
  close (exp (log 0.01)) 0.01 ->
  let linear := _get_min_max_synapse_gbar log 1e-08 0.001 false in
  let logarithmic := _get_min_max_synapse_gbar log 1e-08 0.001 true in
  linear = (repeat 1e-08 7, 0.01 :: repeat 0.001 6)
  /\ fst logarithmic = map log (fst linear)
  /\ snd logarithmic = map log (snd linear)
  /\ Forall2 close (map exp (fst logarithmic)) (fst linear)
  /\ Forall2 close (map exp (snd logarithmic)) (snd linear)
  /\ (index_accepted setups = true ->
      exists gbar_l gbar_u q10_l q10_u,
        prior_bounds log setups false
        = Ok (gbar_l ++ fst linear ++ q10_l, gbar_u ++ snd linear ++ q10_u)
        /\ prior_bounds log setups true
           = Ok (gbar_l ++ map log (fst linear) ++ q10_l,
                 gbar_u ++ map log (snd linear) ++ q10_u)).
Proof.
  intros Hmin Hmax Hmax10. cbv zeta.
  split; [vm_compute; reflexivity|].
  split; [reflexivity|]. split; [reflexivity|].
  split; [vm_compute; repeat constructor; assumption|].
  split; [vm_compute; repeat constructor; assumption|].
  intros Hacc.
  destruct (prior_bounds_index_accepted log setups Hacc)
    as (a & gbar_l & gbar_u & q10_l & q10_u & _ & _ & Hok).
  exists gbar_l, gbar_u, q10_l, q10_u. split; [exact (Hok false)|exact (Hok true)].
Qed.

Lemma synapse_log_space_round_trip_witness :
  (within_tolerance (exp_rounded (log_table 1e-08)) 1e-08
   /\ within_tolerance (exp_rounded (log_table 0.001)) 0.001
   /\ within_tolerance (exp_rounded (log_table 0.01)) 0.01)
  /\ index_accepted (resolve_setups example_customization) = true
  /\ Forall2 within_tolerance
       (map exp_rounded (fst (_get_min_max_synapse_gbar log_table 1e-08 0.001 true)))
       (fst (_get_min_max_synapse_gbar log_table 1e-08 0.001 false))
  /\ Forall2 within_tolerance
       (map exp_rounded (snd (_get_min_max_synapse_gbar log_table 1e-08 0.001 true)))
       (snd (_get_min_max_synapse_gbar log_table 1e-08 0.001 false))
  /\ exists gbar_l gbar_u q10_l q10_u,
       prior_bounds log_table (resolve_setups example_customization) false
       = Ok (gbar_l ++ fst (_get_min_max_synapse_gbar log_table 1e-08 0.001 false)
               ++ q10_l,
             gbar_u ++ snd (_get_min_max_synapse_gbar log_table 1e-08 0.001 false)
               ++ q10_u)
       /\ prior_bounds log_table (resolve_setups example_customization) true
          = Ok (gbar_l
                  ++ map log_table
                       (fst (_get_min_max_synapse_gbar log_table 1e-08 0.001 false))
                  ++ q10_l,
                gbar_u
                  ++ map log_table
                       (snd (_get_min_max_synapse_gbar log_table 1e-08 0.001 false))
                  ++ q10_u).
Proof.
  assert (Hmin : within_tolerance (exp_rounded (log_table 1e-08)) 1e-08)
    by (vm_compute; reflexivity).
  assert (Hmax : within_tolerance (exp_rounded (log_table 0.001)) 0.001)
    by (vm_compute; reflexivity).
  assert (Hmax10 : within_tolerance (exp_rounded (log_table 0.01)) 0.01)
    by (vm_compute; reflexivity).
  assert (Hacc : index_accepted (resolve_setups example_customization) = true)
    by (vm_compute; reflexivity).
  pose proof (synapse_log_space_round_trip log_table exp_rounded within_tolerance
                (resolve_setups example_customization) Hmin Hmax Hmax10) as H.
  cbv zeta in H. destruct H as (_ & _ & _ & Hl & Hu & Hall).
  split; [auto|]. split; [exact Hacc|]. split; [exact Hl|]. split; [exact Hu|].
  exact (Hall Hacc).
Defined.

(** C6 (as stated) fails in binary64: with the logarithm and the
    exponential rounded as the C library rounds them, the exponential of
    the bounds in log space is not the bounds in linear space; it differs
    from them in every entry. *)
Lemma exp_of_log_bounds_is_not_the_linear_bounds :
  _get_min_max_synapse_gbar log_table 1e-08 0.001 false
  = (repeat 1e-08 7, 0.01 :: repeat 0.001 6)
  /\ _get_min_max_synapse_gbar log_table 1e-08 0.001 true
     = (repeat (-18.420680743952367) 7,
        -4.605170185988091 :: repeat (-6.907755278982137) 6)
  /\ map exp_rounded (fst (_get_min_max_synapse_gbar log_table 1e-08 0.001 true))
     = repeat 9.999999999999982e-09 7
  /\ map exp_rounded (snd (_get_min_max_synapse_gbar log_table 1e-08 0.001 true))
     = 0.010000000000000004 :: repeat 0.0010000000000000002 6
  /\ (1e-08 =? 9.999999999999982e-09) = false
  /\ (0.01 =? 0.010000000000000004) = false
  /\ (0.001 =? 0.0010000000000000002) = false
  /\ fst (_get_min_max_synapse_gbar log_table 1e-08 0.001 false)
     <> map exp_rounded (fst (_get_min_max_synapse_gbar log_table 1e-08 0.001 true))
  /\ snd (_get_min_max_synapse_gbar log_table 1e-08 0.001 false)
     <> map exp_rounded (snd (_get_min_max_synapse_gbar log_table 1e-08 0.001 true)).
Proof.
  do 7 (split; [vm_compute; reflexivity|]).
  split; intros H.
  - apply (f_equal (fun l => match l with x :: _ => (x =? 1e-08) | [] => false end)) in H.
    vm_compute in H. discriminate H.
  - apply (f_equal (fun l => match l with x :: _ => (x =? 0.01) | [] => false end)) in H.
    vm_compute in H. discriminate H.
Qed.

(** X4: on a configuration of arrays [prior_bounds] returns exactly when
    all seven keys are there, every axis of the membrane mask that is not
    empty is as long as the axis of the tables it indexes, and every Q10
    mask is one-dimensional; the flag [synapses_log_space] plays no part
    in that. *)
Theorem prior_bounds_returns_iff_accepted
    (log : float -> float) (setups : gmap string ndarray) (b : bool) :
  holds_arrays setups = true ->
  is_ok (prior_bounds log setups b) = index_accepted setups.
Proof.
  intros _.
  destruct (prior_bounds log setups b) as [[l u]|e] eqn:Hres; cbn [is_ok].
  - symmetry. exact (prior_bounds_returns_accepted _ _ _ _ _ Hres).
  - destruct (index_accepted setups) eqn:Hacc; [|reflexivity].
    destruct (prior_bounds_index_accepted log setups Hacc)
      as (a & gbar_l & gbar_u & q10_l & q10_u & _ & _ & Hok).
    rewrite Hok in Hres. discriminate Hres.
Qed.

(** With a membrane mask without entries the bounds are the 7 synaptic
    ones. *)
Lemma prior_bounds_returns_iff_accepted_witness :
  holds_arrays (resolve_setups empty_mask_customization) = true
  /\ is_ok (prior_bounds log_table (resolve_setups empty_mask_customization) true)
     = index_accepted (resolve_setups empty_mask_customization)
  /\ prior_bounds log_table (resolve_setups empty_mask_customization) true
     = Ok (repeat (log_table 1e-08) 7, log_table 0.01 :: repeat (log_table 0.001) 6).
Proof.
  assert (Harr : holds_arrays (resolve_setups empty_mask_customization) = true)
    by (vm_compute; reflexivity).
  split; [exact Harr|]. split.
  - exact (prior_bounds_returns_iff_accepted log_table _ true Harr).
  - vm_compute. reflexivity.
Defined.

(** X5: the flag [synapses_log_space] changes the synaptic entries only:
    on an accepted configuration the bounds are, for both values of the
    flag, the same membrane entries, then the 7 synaptic entries of that
    flag, then the same Q10 entries. *)
Theorem log_space_flag_changes_synaptic_entries_only
    (log : float -> float) (setups : gmap string ndarray) :
  accepted setups = true ->
  exists gbar_l gbar_u q10_l q10_u,
    (exists mask, setups !! "membrane_gbar"%string = Some mask
                  /\ _get_min_max_membrane_gbar mask = Ok (gbar_l, gbar_u))
    /\ length gbar_l = length gbar_u
    /\ forall b,
         length (fst (_get_min_max_synapse_gbar log 1e-08 0.001 b)) = 7%nat
         /\ length (snd (_get_min_max_synapse_gbar log 1e-08 0.001 b)) = 7%nat
         /\ prior_bounds log setups b
            = Ok (gbar_l ++ fst (_get_min_max_synapse_gbar log 1e-08 0.001 b) ++ q10_l,
                  gbar_u ++ snd (_get_min_max_synapse_gbar log 1e-08 0.001 b) ++ q10_u).
Proof.
  intros Hacc.
  destruct (prior_bounds_accepted log setups Hacc)
    as (a & gbar_l & gbar_u & q10_l & q10_u & Hget & Hmem & Hok).
  exists gbar_l, gbar_u, q10_l, q10_u. split; [eauto|]. split.
  - exact (Forall2_length _ _ _ (membrane_gbar_ordered _ _ _ Hmem)).
  - intros b. destruct (synapse_gbar_length log 1e-08 0.001 b) as [Hl Hu]. auto.
Qed.

Lemma log_space_flag_changes_synaptic_entries_only_witness :
  accepted (resolve_setups example_customization) = true
  /\ exists gbar_l gbar_u q10_l q10_u,
       (exists mask,
           resolve_setups example_customization !! "membrane_gbar"%string = Some mask
           /\ _get_min_max_membrane_gbar mask = Ok (gbar_l, gbar_u))
       /\ length gbar_l = length gbar_u
       /\ forall b,
            length (fst (_get_min_max_synapse_gbar log_table 1e-08 0.001 b)) = 7%nat
            /\ length (snd (_get_min_max_synapse_gbar log_table 1e-08 0.001 b)) = 7%nat
            /\ prior_bounds log_table (resolve_setups example_customization) b
               = Ok (gbar_l ++ fst (_get_min_max_synapse_gbar log_table 1e-08 0.001 b)
                       ++ q10_l,
                     gbar_u ++ snd (_get_min_max_synapse_gbar log_table 1e-08 0.001 b)
                       ++ q10_u).
Proof.
  assert (Hacc : accepted (resolve_setups example_customization) = true)
    by (vm_compute; reflexivity).
  split; [exact Hacc|].
  exact (log_space_flag_changes_synaptic_entries_only log_table _ Hacc).
Defined.

(** ** Further properties of the factory *)

Lemma resolve_setups_lookup (customization : gmap string ndarray) (key : string) :
  resolve_setups customization !! key
  = match customization !! key with
    | Some entry => Some entry
    | None => default_setups !! key
    end.
Proof.
  unfold resolve_setups, ensure_array_not_scalar. cbv zeta.
  rewrite lookup_fmap, lookup_union.
  destruct (customization !! key), (default_setups !! key); reflexivity.
Qed.

Lemma read_masks_resolve_setups (customization : gmap string ndarray) :
  exists m, read_masks (resolve_setups customization) = Some m.
Proof.
  unfold read_masks. rewrite !resolve_setups_lookup.
  repeat match goal with
         | |- context [customization !! ?key] => destruct (customization !! key)
         end;
    vm_compute; eauto.
Qed.

(** X6: the customization replaces the default mask of every key it
    holds, as a whole, and every other key keeps its default; so all seven
    masks are there whatever the customization, and the bound calculator
    can only fail on a resolved configuration with [IndexError], never with
    [KeyError]. *)
Theorem resolved_setups_hold_every_mask
    (log : float -> float) (customization : gmap string ndarray) (b : bool) :
  (forall key,
      resolve_setups customization !! key
      = match customization !! key with
        | Some entry => Some entry
        | None => default_setups !! key
        end)
  /\ Forall (fun key => is_Some (resolve_setups customization !! key)) mask_keys
  /\ match prior_bounds log (resolve_setups customization) b with
     | Ok _ => True
     | Raise e => e = IndexError
     end.
Proof.
  split; [exact (resolve_setups_lookup customization)|]. split.
  - destruct (read_masks_resolve_setups customization) as [m Hm].
    apply read_masks_lookup in Hm. unfold mask_keys, q10_keys in *.
    injection Hm as H0 H1 H2 H3 H4 H5 H6.
    repeat constructor; eauto.
  - destruct (prior_bounds log (resolve_setups customization) b) as [?|e] eqn:Hres;
      [exact I|].
    destruct (read_masks_resolve_setups customization) as [m Hm].
    exact (prior_bounds_raises_IndexError _ _ _ _ _ Hm Hres).
Qed.

(** X7: explicit bound vectors do not spare the masks their check: when
    the resolved configuration holds arrays and the bound calculator does
    not take them (the membrane mask has an axis that is neither empty nor
    as long as the axis of the tables, or a Q10 mask is nested),
    [create_prior] raises [IndexError] whatever bounds are given and
    whatever the sampler. *)
Theorem explicit_bounds_do_not_bypass_mask_check
    (log : float -> float) (sampler : Type)
    (BoxUniform : list float -> list float -> result sampler)
    (lower_bound upper_bound : option (list float))
    (customization : gmap string ndarray) (b : bool) :
  holds_arrays (resolve_setups customization) = true ->
  index_accepted (resolve_setups customization) = false ->
  create_prior log sampler BoxUniform lower_bound upper_bound customization b
  = Raise IndexError.
Proof.
  intros _ Hacc. unfold create_prior.
  destruct (prior_bounds log (resolve_setups customization) b) as [[l u]|e] eqn:Hres.
  - apply prior_bounds_returns_accepted in Hres. congruence.
  - destruct (read_masks_resolve_setups customization) as [m Hm].
    now rewrite (prior_bounds_raises_IndexError _ _ _ _ _ Hm Hres).
Qed.

Lemma explicit_bounds_do_not_bypass_mask_check_witness :
  holds_arrays (resolve_setups lone_true_customization) = true
  /\ index_accepted (resolve_setups lone_true_customization) = false
  /\ create_prior log_table box box_uniform (Some [0]) (Some [1])
       lone_true_customization true
     = Raise IndexError.
Proof.
  assert (Harr : holds_arrays (resolve_setups lone_true_customization) = true)
    by (vm_compute; reflexivity).
  assert (Hacc : index_accepted (resolve_setups lone_true_customization) = false)
    by (vm_compute; reflexivity).
  split; [exact Harr|]. split; [exact Hacc|].
  exact (explicit_bounds_do_not_bypass_mask_check log_table box box_uniform
           (Some [0]) (Some [1]) lone_true_customization true Harr Hacc).
Defined.

(** ** Further properties of the bounds *)

Lemma membrane_tables_strictly_ordered :
  Forall2 (Forall2 (fun l u => (l <? u) = true)) membrane_cond_mins membrane_cond_maxs.
Proof. vm_compute. repeat constructor. Qed.

Lemma _select_related (R : float -> float -> Prop)
    (minimum_val maximum_val : float) (selector : ndarray) (lo hi : list float) :
  R (minimum_val * 1) (maximum_val * 1) ->
  _select minimum_val maximum_val selector = Ok (lo, hi) -> Forall2 R lo hi.
Proof.
  intros HR. destruct selector as [cells|rows]; [|discriminate].
  rewrite _select_flat. intros [= <- <-].
  cbn [count_true]. generalize (length (List.filter id cells)).
  intros n. induction n; cbn [repeat]; now constructor.
Qed.

Lemma concat_groups_related (R : float -> float -> Prop)
    (gs : list (list float * list float)) :
  Forall (fun g => Forall2 R (fst g) (snd g)) gs ->
  Forall2 R (concat (map fst gs)) (concat (map snd gs)).
Proof. induction 1; cbn [map concat]; [constructor|now apply Forall2_app]. Qed.

Lemma prior_bounds_related (R : float -> float -> Prop) (log : float -> float)
    (setups : gmap string ndarray) (b : bool) (l u : list float) :
  Forall2 (Forall2 R) membrane_cond_mins membrane_cond_maxs ->
  Forall2 R (fst (_get_min_max_synapse_gbar log 1e-08 0.001 b))
            (snd (_get_min_max_synapse_gbar log 1e-08 0.001 b)) ->
  R (1.0 * 1) (2.0 * 1) -> R (1.0 * 1) (4.0 * 1) ->
  prior_bounds log setups b = Ok (l, u) -> Forall2 R l u.
Proof.
  intros Hmem Hsyn Hg Htau (m & gs & _ & Hgroups & -> & ->)%prior_bounds_inv.
  apply concat_groups_related. unfold group_bounds in Hgroups.
  do 9 (destruct gs as [|[? ?] gs]; try discriminate Hgroups).
  injection Hgroups as E0 E1 E2 E3 E4 E5 E6 E7.
  repeat constructor; cbn [fst snd];
    try (eapply _select_related; [|eassumption]; assumption).
  - eapply membrane_gbar_related; eassumption.
  - now rewrite E1 in Hsyn.
Qed.

(** X8: on every accepted configuration and for either value of the flag
    the box has positive width in every dimension: [lower[i] < upper[i]]
    at every index; in log space this takes that the logarithm strictly
    orders the two pairs of arguments it is applied to. *)
Theorem bounds_lower_lt_upper
    (log : float -> float) (setups : gmap string ndarray) (b : bool) :
  (b = true -> (log 1e-08 <? log 0.001) = true /\ (log 1e-08 <? log 0.01) = true) ->
  accepted setups = true ->
  exists l u,
    prior_bounds log setups b = Ok (l, u)
    /\ forall (i : nat) (x y : float),
         l !! i = Some x -> u !! i = Some y -> (x <? y) = true.
Proof.
  intros Hlog Hacc.
  destruct (prior_bounds_accepted log setups Hacc)
    as (a & gbar_l & gbar_u & q10_l & q10_u & _ & _ & Hok).
  eexists _, _. split; [exact (Hok b)|].
  assert (Hord : strictly_ordered
                   (fst (_get_min_max_synapse_gbar log 1e-08 0.001 b))
                   (snd (_get_min_max_synapse_gbar log 1e-08 0.001 b))).
  { destruct b.
    - destruct (Hlog eq_refl) as [H3 H2]. vm_compute. repeat constructor; assumption.
    - vm_compute. repeat constructor. }
  pose proof (prior_bounds_related _ log setups b _ _
                membrane_tables_strictly_ordered Hord eq_refl eq_refl (Hok b)) as Hall.
  intros i x y Hx Hy. exact (Forall2_lookup_lr _ _ _ _ _ _ Hall Hx Hy).
Qed.

Lemma bounds_lower_lt_upper_witness :
  ((log_table 1e-08 <? log_table 0.001) = true
   /\ (log_table 1e-08 <? log_table 0.01) = true)
  /\ accepted (resolve_setups example_customization) = true
  /\ exists l u,
       prior_bounds log_table (resolve_setups example_customization) true = Ok (l, u)
       /\ forall (i : nat) (x y : float),
            l !! i = Some x -> u !! i = Some y -> (x <? y) = true.
Proof.
  assert (Hlog : (log_table 1e-08 <? log_table 0.001) = true
                 /\ (log_table 1e-08 <? log_table 0.01) = true)
    by (split; vm_compute; reflexivity).
  assert (Hacc : accepted (resolve_setups example_customization) = true)
    by (vm_compute; reflexivity).
  split; [exact Hlog|]. split; [exact Hacc|].
  exact (bounds_lower_lt_upper log_table _ true (fun _ => Hlog) Hacc).
Defined.

Lemma padded_below_reference :
  Forall2 (Forall2 (fun l u => (l <=? u) = true))
    membrane_cond_mins (scale2 unit_scale membrane_cond_mins_table).
Proof. vm_compute. repeat constructor. Qed.

Lemma reference_tables_ordered :
  Forall2 (Forall2 (fun l u => (l <=? u) = true))
    (scale2 unit_scale membrane_cond_mins_table)
    (scale2 unit_scale membrane_cond_maxs_table).
Proof. vm_compute. repeat constructor. Qed.

Lemma padded_above_reference :
  Forall2 (Forall2 (fun l u => (l <=? u) = true))
    (scale2 unit_scale membrane_cond_maxs_table) membrane_cond_maxs.
Proof. vm_compute. repeat constructor. Qed.

(** X9: padding and clipping only widen the reference ranges: for every
    mask that fits, each membrane lower bound is at most the scaled
    reference minimum of its cell, which is at most the scaled reference
    maximum, which is at most the upper bound. *)
Theorem membrane_bounds_contain_reference_ranges (selector : ndarray) :
  fits_membrane selector = true ->
  exists lo hi ref_lo ref_hi,
    _get_min_max_membrane_gbar selector = Ok (lo, hi)
    /\ bool_index2 (scale2 unit_scale membrane_cond_mins_table) selector = Ok ref_lo
    /\ bool_index2 (scale2 unit_scale membrane_cond_maxs_table) selector = Ok ref_hi
    /\ ordered lo ref_lo /\ ordered ref_lo ref_hi /\ ordered ref_hi hi.
Proof.
  intros Hfit. unfold _get_min_max_membrane_gbar.
  destruct (is_ok_true (bool_index2 membrane_cond_mins selector)) as [lo Hlo];
    [now apply bool_index2_is_ok|].
  destruct (is_ok_true (bool_index2 membrane_cond_maxs selector)) as [hi Hhi];
    [now apply bool_index2_is_ok|].
  destruct (is_ok_true (bool_index2 (scale2 unit_scale membrane_cond_mins_table) selector))
    as [ref_lo Hrlo]; [now apply bool_index2_is_ok|].
  destruct (is_ok_true (bool_index2 (scale2 unit_scale membrane_cond_maxs_table) selector))
    as [ref_hi Hrhi]; [now apply bool_index2_is_ok|].
  exists lo, hi, ref_lo, ref_hi. rewrite Hlo, Hhi. cbn [bind].
  split; [reflexivity|]. split; [exact Hrlo|]. split; [exact Hrhi|].
  unfold ordered. split; [|split].
  - exact (bool_index2_related _ _ _ _ _ _ padded_below_reference Hlo Hrlo).
  - exact (bool_index2_related _ _ _ _ _ _ reference_tables_ordered Hrlo Hrhi).
  - exact (bool_index2_related _ _ _ _ _ _ padded_above_reference Hrhi Hhi).
Qed.

Lemma membrane_bounds_contain_reference_ranges_witness :
  fits_membrane (Arr1 [false; true; false]) = true
  /\ exists lo hi ref_lo ref_hi,
       _get_min_max_membrane_gbar (Arr1 [false; true; false]) = Ok (lo, hi)
       /\ bool_index2 (scale2 unit_scale membrane_cond_mins_table)
            (Arr1 [false; true; false]) = Ok ref_lo
       /\ bool_index2 (scale2 unit_scale membrane_cond_maxs_table)
            (Arr1 [false; true; false]) = Ok ref_hi
       /\ ordered lo ref_lo /\ ordered ref_lo ref_hi /\ ordered ref_hi hi.
Proof.
  split; [reflexivity|].
  exact (membrane_bounds_contain_reference_ranges (Arr1 [false; true; false]) eq_refl).
Defined.

Lemma mask_select_length_eq {A B : Type} (v : list A) (w : list B) (m : list bool) :
  length v = length w -> length (mask_select v m) = length (mask_select w m).
Proof.
  revert w m. induction v as [|x v IH]; intros [|y w] [|b m] Hlen;
    simpl in *; try reflexivity; try discriminate.
  destruct b; simpl; auto.
Qed.

Lemma combine_app_same {A B : Type} (a b : list A) (c d : list B) :
  length a = length c -> combine (a ++ b) (c ++ d) = combine a c ++ combine b d.
Proof.
  revert c. induction a as [|x a IH]; intros [|y c] Hlen; simpl in *;
    try reflexivity; try discriminate.
  f_equal. apply IH. lia.
Qed.

Lemma mask_select_combine_sublist {A B : Type} (v : list A) (w : list B) (m : list bool) :
  combine (mask_select v m) (mask_select w m) `sublist_of` combine v w.
Proof.
  revert w m. induction v as [|x v IH]; intros w m.
  - destruct m; apply sublist_nil_l.
  - destruct w as [|y w].
    + replace (mask_select (@nil B) m) with (@nil B) by (destruct m; reflexivity).
      rewrite combine_nil. apply sublist_nil_l.
    + destruct m as [|b m]; simpl; [apply sublist_nil_l|].
      destruct b; simpl; [apply sublist_skip|apply sublist_cons]; apply IH.
Qed.

Lemma zip_select_combine_sublist {A B : Type}
    (t : list (list A)) (t' : list (list B)) :
  Forall2 (fun r r' => length r = length r') t t' ->
  forall rows,
    combine (concat (zip_rows mask_select t rows)) (concat (zip_rows mask_select t' rows))
    `sublist_of` combine (concat t) (concat t').
Proof.
  induction 1 as [|r r' t t' Hr _ IH]; intros [|m rows]; simpl;
    try apply sublist_nil_l.
  rewrite !combine_app_same by (auto using mask_select_length_eq).
  apply sublist_app; [apply mask_select_combine_sublist|apply IH].
Qed.

Lemma row_select_combine_sublist {A B : Type}
    (t : list (list A)) (t' : list (list B)) :
  Forall2 (fun r r' => length r = length r') t t' ->
  forall m,
    combine (concat (mask_select t m)) (concat (mask_select t' m))
    `sublist_of` combine (concat t) (concat t').
Proof.
  induction 1 as [|r r' t t' Hr _ IH]; intros [|b m]; simpl;
    try apply sublist_nil_l.
  rewrite (combine_app_same r _ r') by exact Hr.
  destruct b; simpl.
  - rewrite combine_app_same by exact Hr. apply sublist_app; [reflexivity|apply IH].
  - apply sublist_inserts_l, IH.
Qed.

Lemma membrane_tables_same_row_lengths :
  Forall2 (fun r r' : list float => length r = length r')
    membrane_cond_mins membrane_cond_maxs.
Proof. vm_compute. repeat constructor. Qed.

(** X10: excluding membrane conductances neither changes nor reorders the
    bounds of those that are kept, and lower and upper bounds stay paired:
    for every mask that fits, the pairs (lower, upper) it yields are a
    subsequence of the 24 pairs the all-[True] mask yields. *)
Theorem membrane_selection_is_a_subsequence (selector : ndarray) :
  fits_membrane selector = true ->
  exists full_lo full_hi lo hi,
    _get_min_max_membrane_gbar (Arr2 (repeat (repeat true 8) 3)) = Ok (full_lo, full_hi)
    /\ length full_lo = 24%nat /\ length full_hi = 24%nat
    /\ _get_min_max_membrane_gbar selector = Ok (lo, hi)
    /\ combine lo hi `sublist_of` combine full_lo full_hi.
Proof.
  intros Hfit.
  exists (concat membrane_cond_mins), (concat membrane_cond_maxs).
  destruct (is_ok_true (bool_index2 membrane_cond_mins selector)) as [lo Hlo];
    [now apply bool_index2_is_ok|].
  destruct (is_ok_true (bool_index2 membrane_cond_maxs selector)) as [hi Hhi];
    [now apply bool_index2_is_ok|].
  exists lo, hi. split; [vm_compute; reflexivity|].
  split; [reflexivity|]. split; [reflexivity|].
  unfold _get_min_max_membrane_gbar. rewrite Hlo, Hhi. cbn [bind].
  split; [reflexivity|].
  pose proof membrane_tables_same_row_lengths as Hrows.
  revert Hlo Hhi Hrows. unfold bool_index2.
  generalize membrane_cond_mins, membrane_cond_maxs. intros t t'.
  destruct selector as [m|rows].
  - destruct (axis_fits (length m) (length t)); [|discriminate].
    destruct (axis_fits (length m) (length t')); [|discriminate].
    intros [= <-] [= <-] Hrows. now apply row_select_combine_sublist.
  - destruct (is_array (Arr2 rows) && axis_fits (length rows) (length t)
              && forallb (fun r => axis_fits (length (hd [] rows)) (length r)) t);
      [|discriminate].
    destruct (is_array (Arr2 rows) && axis_fits (length rows) (length t')
              && forallb (fun r => axis_fits (length (hd [] rows)) (length r)) t');
      [|discriminate].
    intros [= <-] [= <-] Hrows. now apply zip_select_combine_sublist.
Qed.

Lemma membrane_selection_is_a_subsequence_witness :
  fits_membrane
    (Arr2 [ [true; false; false; false; false; true; false; false];
            [false; false; true; false; false; false; false; true];
            [false; false; false; false; false; false; false; false] ]) = true
  /\ exists full_lo full_hi lo hi,
       _get_min_max_membrane_gbar (Arr2 (repeat (repeat true 8) 3)) = Ok (full_lo, full_hi)
       /\ length full_lo = 24%nat /\ length full_hi = 24%nat
       /\ _get_min_max_membrane_gbar
            (Arr2 [ [true; false; false; false; false; true; false; false];
                    [false; false; true; false; false; false; false; true];
                    [false; false; false; false; false; false; false; false] ])
          = Ok (lo, hi)
       /\ combine lo hi `sublist_of` combine full_lo full_hi.
Proof.
  split; [reflexivity|].
  exact (membrane_selection_is_a_subsequence
           (Arr2 [ [true; false; false; false; false; true; false; false];
                   [false; false; true; false; false; false; false; true];
                   [false; false; false; false; false; false; false; false] ])
           eq_refl).
Defined.
